(** * A shallow embedding of [dos.py], the asynchronous HTTP stress tester

    The development follows the source file top to bottom: Python values and
    their truthiness, the command line and the JSON configuration
    ([parse_args], [load_config], the resolution in [main]), the
    [StressTester] object with its statistics, the proxy validation, one
    [send_request] under the [tenacity] retry decorator, the fan-out of
    [run] under an [asyncio.Semaphore], and the [report] with its
    percentiles.

    Integers are [Z], strings are [string], the object [json.load] returns is
    a [gmap], the two [defaultdict(int)] histograms are insertion-ordered
    association lists read with default 0, and the coroutines of [run] are a
    labelled transition system whose labels are the points where the event
    loop resumes a task. *)

From Stdlib Require Import ZArith Lia Bool Ascii String.
From stdpp Require Import base decidable option list sorting gmap strings.

Local Open Scope Z_scope.

(** ** Python values *)

Module Py.

(** The values [json.load] and [argparse] hand to [main]: [None], booleans,
    integers, strings, lists and (nested) objects.  JSON numbers with a
    fraction are left out. *)
#[warnings="-register-all"] Inductive val :=
| None_
| Bool (b : bool)
| Int (n : Z)
| Str (s : string)
| List (l : list val)
| Dict (d : list (string * val)).

(** Truth value testing: [None], [False], [0] and empty containers are
    false, everything else is true. *)
Definition truthy (v : val) : bool :=
  match v with
  | None_ => false
  | Bool b => b
  | Int n => negb (n =? 0)
  | Str s => negb (String.eqb s "")
  | List l => match l with [] => false | _ => true end
  | Dict d => match d with [] => false | _ => true end
  end.

(** [a or b] evaluates to [a] when [a] is true and to [b] otherwise. *)
Definition or (a b : val) : val := if truthy a then a else b.

(** [d.get(key, default)] on the object [json.load] returned. *)
Definition get (d : gmap string val) (key : string) (default_ : val) : val :=
  default default_ (d !! key).

(** [s.upper()], on ASCII letters. *)
Definition upper_ascii (c : ascii) : ascii :=
  let n := nat_of_ascii c in
  if ((97 <=? n) && (n <=? 122))%nat then ascii_of_nat (n - 32) else c.

Fixpoint upper (s : string) : string :=
  match s with
  | EmptyString => EmptyString
  | String c s' => String (upper_ascii c) (upper s')
  end.

(** [random.choice(seq)] with the random draw [r] made explicit; callers
    only draw from non-empty sequences. *)
Definition choice {A} (d : A) (seq : list A) (r : nat) : A :=
  nth (r `mod` length seq) seq d.

(** [defaultdict(int)]: insertion-ordered keys with integer counts; a
    missing key reads as 0. *)
Fixpoint item {K} `{EqDecision K} (d : list (K * Z)) (k : K) : Z :=
  match d with
  | [] => 0
  | (k', n) :: d' => if decide (k' = k) then n else item d' k
  end.

(** [d[k] += 1]: the count of an existing key grows in place, a new key is
    appended with count 1. *)
Fixpoint incr {K} `{EqDecision K} (d : list (K * Z)) (k : K) : list (K * Z) :=
  match d with
  | [] => [(k, 0 + 1)]
  | (k', n) :: d' => if decide (k' = k) then (k', n + 1) :: d' else (k', n) :: incr d' k
  end.

(** [d.values()] *)
Definition values {K} (d : list (K * Z)) : list Z := d.*2.

(** [l[i]] for a Python list: indices [0 .. len-1] count from the front,
    [-len .. -1] from the back, anything else raises [IndexError] ([None]). *)
Definition getitem {A} (l : list A) (i : Z) : option A :=
  let n := Z.of_nat (length l) in
  if (0 <=? i) && (i <? n) then l !! Z.to_nat i
  else if (- n <=? i) && (i <? 0) then l !! Z.to_nat (n + i)
  else None.

(** [sorted(l)] on numbers.  Python's sort is stable, but on numbers any
    algorithm returns the same list: the ascending rearrangement. *)
Definition sorted (l : list Z) : list Z := merge_sort Z.le l.

(** [sum(l)] *)
Definition sum (l : list Z) : Z := foldr Z.add 0 l.

End Py.

(** ** The command line ([parse_args], lines 21-33) *)

(** What the user typed: the positional [url] and each flag, [None] when
    the flag is not on the command line.  [--proxies] with no value is
    [Some []]; [--validate-proxies] is a switch. *)
Module Cli.
Record t := mk {
  url : option string;
  threads : option Z;
  requests : option Z;
  timeout : option Z;
  method : option string;
  data : option string;
  proxies : option (list string);
  log_file : option string;
  config : option string;
  validate_proxies : bool
}.
End Cli.

(** The namespace [parse_args] returns. *)
Module Args.
Record t := mk {
  url : string;
  threads : Z;
  requests : Z;
  timeout : Z;
  method : string;
  data : string;
  proxies : list string;
  log_file : string;
  config : option string;
  validate_proxies : bool
}.
End Args.

(** [argparse] fills every absent flag with its [default=]; a missing
    positional [url] or a [--method] outside [choices] ends the process with
    a usage error ([None]). *)
Definition parse_args (c : Cli.t) : option Args.t :=
  match Cli.url c with
  | None => None
  | Some url =>
      let method := default "GET"%string (Cli.method c) in
      if bool_decide (method = "GET"%string) || bool_decide (method = "POST"%string) then
        Some {| Args.url := url;
                Args.threads := default 100 (Cli.threads c);
                Args.requests := default 1000 (Cli.requests c);
                Args.timeout := default 5 (Cli.timeout c);
                Args.method := method;
                Args.data := default ""%string (Cli.data c);
                Args.proxies := default [] (Cli.proxies c);
                Args.log_file := default "stress_test.log"%string (Cli.log_file c);
                Args.config := Cli.config c;
                Args.validate_proxies := Cli.validate_proxies c |}
      else None
  end.

(** ** The configuration file ([load_config], lines 35-42)

    [fs path] is the object [json.load] reads from [path], or [None] when
    opening or parsing raises; [load_config] then logs and returns [{}].
    A file whose top-level JSON value is not an object is outside the model. *)
Definition load_config (fs : string -> option (gmap string Py.val)) (config_path : string)
  : gmap string Py.val :=
  match fs config_path with
  | Some config => config
  | None => ∅
  end.

(** ** Resolution of the settings ([main], lines 186-199) *)

Record Resolved := {
  r_url : Py.val;
  r_threads : Py.val;
  r_requests_per_thread : Py.val;
  r_timeout : Py.val;
  r_method : Py.val;
  r_data : Py.val;
  r_proxies : Py.val;
  r_log_file : Py.val;
  r_validate_proxies : Py.val
}.

(** Lines 186-188: [config = {}], replaced by the file when [args.config]
    is a non-empty string. *)
Definition main_config (fs : string -> option (gmap string Py.val)) (args : Args.t)
  : gmap string Py.val :=
  match Args.config args with
  | Some path => if Py.truthy (Py.Str path) then load_config fs path else ∅
  | None => ∅
  end.

(** Lines 191-199: every setting is [args.<key> or config.get(<key>, <default>)]. *)
Definition main_resolve (args : Args.t) (config : gmap string Py.val) : Resolved :=
  {| r_url := Py.or (Py.Str (Args.url args)) (Py.get config "url" Py.None_);
     r_threads := Py.or (Py.Int (Args.threads args)) (Py.get config "threads" (Py.Int 100));
     r_requests_per_thread :=
       Py.or (Py.Int (Args.requests args)) (Py.get config "requests" (Py.Int 1000));
     r_timeout := Py.or (Py.Int (Args.timeout args)) (Py.get config "timeout" (Py.Int 5));
     r_method := Py.or (Py.Str (Args.method args)) (Py.get config "method" (Py.Str "GET"));
     r_data := Py.or (Py.Str (Args.data args)) (Py.get config "data" (Py.Str ""));
     r_proxies :=
       Py.or (Py.List (Py.Str <$> Args.proxies args)) (Py.get config "proxies" (Py.List []));
     r_log_file :=
       Py.or (Py.Str (Args.log_file args)) (Py.get config "log_file" (Py.Str "stress_test.log"));
     r_validate_proxies :=
       Py.or (Py.Bool (Args.validate_proxies args))
             (Py.get config "validate_proxies" (Py.Bool false)) |}.

(** ** The network as the program sees it *)

(** The exceptions a request can raise, by the classes the handlers and
    the retry predicate test for.  [ServerTimeoutError] is aiohttp's class
    that is both a [ClientError] and an [asyncio.TimeoutError];
    [ClientError] stands for every other subclass of [aiohttp.ClientError],
    [OtherException] for every other subclass of [Exception].  [RetryError]
    is what [tenacity] raises when it gives up.  Exceptions outside
    [Exception] (cancellation, interrupts) are not modelled. *)
Inductive exn :=
| TimeoutError
| ServerTimeoutError (msg : string)
| ClientConnectorError (msg : string)
| ClientError (msg : string)
| OtherException (msg : string)
| RetryError.

Definition isinstance_TimeoutError (e : exn) : bool :=
  match e with TimeoutError | ServerTimeoutError _ => true | _ => false end.

Definition isinstance_ClientConnectorError (e : exn) : bool :=
  match e with ClientConnectorError _ => true | _ => false end.

Definition isinstance_ClientError (e : exn) : bool :=
  match e with
  | ServerTimeoutError _ | ClientConnectorError _ | ClientError _ => true
  | _ => false
  end.

(** [str(e)] *)
Definition str (e : exn) : string :=
  match e with
  | TimeoutError => ""
  | ServerTimeoutError msg | ClientConnectorError msg | ClientError msg
  | OtherException msg => msg
  | RetryError => "RetryError"
  end.

(** What entering [async with session.request(...)] yields: a response with
    its status code, or an exception. *)
Inductive http_result :=
| Response (status : Z)
| Raise (e : exn).

Record request := {
  req_method : string;
  req_url : string;
  req_headers : list (string * string);
  req_data : option string;
  req_timeout : Z;
  req_proxy : option string
}.

(** ** [StressTester] (lines 57-73)

    The object is mutated in place by the coroutines; here every operation
    takes the object and returns the updated one.  [self.lock] is never
    held across a suspension point, so each [async with self.lock] block is
    one indivisible update. *)

Record Stats := {
  status_codes : list (Z * Z);
  errors : list (string * Z)
}.

Record StressTester := {
  url : string;
  total_requests : Z;
  concurrency : Z;
  timeout : Z;
  method : string;
  data : string;
  proxies : list string;
  validate_proxies : bool;
  stats : Stats;
  latencies : list Z
}.

Definition __init__ (url : string) (total_requests concurrency timeout : Z)
    (method data : string) (proxies : list string) (validate_proxies : bool) : StressTester :=
  {| url := url; total_requests := total_requests; concurrency := concurrency;
     timeout := timeout; method := Py.upper method; data := data; proxies := proxies;
     validate_proxies := validate_proxies;
     stats := {| status_codes := []; errors := [] |};
     latencies := [] |}.

Definition set_proxies (self : StressTester) (ps : list string) : StressTester :=
  {| url := url self; total_requests := total_requests self; concurrency := concurrency self;
     timeout := timeout self; method := method self; data := data self; proxies := ps;
     validate_proxies := validate_proxies self; stats := stats self;
     latencies := latencies self |}.

Definition set_stats (self : StressTester) (st : Stats) (lat : list Z) : StressTester :=
  {| url := url self; total_requests := total_requests self; concurrency := concurrency self;
     timeout := timeout self; method := method self; data := data self;
     proxies := proxies self; validate_proxies := validate_proxies self; stats := st;
     latencies := lat |}.

(** ** Proxy validation (lines 75-101) *)

(** The probe of line 78: [session.get(test_url, proxy=proxy, timeout=10)]. *)
Definition probe_request (proxy : string) : request :=
  {| req_method := "GET"; req_url := "http://httpbin.org/ip"; req_headers := [];
     req_data := None; req_timeout := 10; req_proxy := Some proxy |}.

(** [validate_proxy]: [session_get] answers the request; the result is the
    verdict together with the requests that were issued. *)
Definition validate_proxy (session_get : request -> http_result) (proxy : string)
  : bool * list request :=
  let probe := probe_request proxy in
  match session_get probe with
  | Response status => if status =? 200 then (true, [probe]) else (false, [probe])
  | Raise e => (false, [probe])
  end.

(** [validate_proxies_async]: one [validate_proxy] task per candidate,
    gathered in order; [net i] answers the request of the task at position
    [i].  Returns the updated object, the returned list and the requests
    issued. *)
Definition validate_proxies_async (self : StressTester) (net : nat -> request -> http_result)
  : StressTester * list string * list request :=
  let tasks := imap (fun i proxy => validate_proxy (net i) proxy) (proxies self) in
  let results := tasks.*1 in
  let valid_proxies := (filter (fun pr => snd pr = true) (zip (proxies self) results)).*1 in
  (set_proxies self valid_proxies, valid_proxies, concat tasks.*2).

(** The valid subset as the specification words it: a candidate is valid
    when its probe is answered by HTTP 200; [net 0] answers the probe of the
    first candidate, [net 1] of the second, and so on. *)
Definition probe_ok (r : http_result) : bool :=
  match r with
  | Response status => bool_decide (status = 200)
  | Raise _ => false
  end.

Fixpoint valid_subset (net : nat -> request -> http_result) (candidates : list string)
  : list string :=
  match candidates with
  | [] => []
  | proxy :: rest =>
      if probe_ok (net 0%nat (probe_request proxy))
      then proxy :: valid_subset (fun i => net (S i)) rest
      else valid_subset (fun i => net (S i)) rest
  end.

(** ** One request ([send_request], lines 103-129) *)

Definition USER_AGENTS : list string := [
  "Mozilla/5.0 (Windows NT 10.0; Win64; x64) AppleWebKit/537.36 (KHTML, like Gecko) Chrome/91.0.4472.124 Safari/537.36";
  "Mozilla/5.0 (Macintosh; Intel Mac OS X 10_15_7) AppleWebKit/537.36 (KHTML, like Gecko) Chrome/91.0.4472.124 Safari/537.36";
  "Mozilla/5.0 (X11; Linux x86_64) AppleWebKit/537.36 (KHTML, like Gecko) Chrome/91.0.4472.124 Safari/537.36";
  "Mozilla/5.0 (iPhone; CPU iPhone OS 14_6 like Mac OS X) AppleWebKit/605.1.15 (KHTML, like Gecko) Version/14.0 Safari/605.1.15"
]%string.

(** The body of [send_request] suspends once, at [session.request].  Up to
    that point (lines 106-116) it draws a user agent and a proxy ([ua] and
    [px] are the two random draws) and issues the request. *)
Definition send_request_issue (self : StressTester) (ua px : nat) : request :=
  let headers := [("User-Agent", Py.choice "" USER_AGENTS ua)]%string in
  let proxy :=
    match proxies self with
    | [] => None
    | _ :: _ => Some (Py.choice ""%string (proxies self) px)
    end in
  let proxy_url :=
    match proxy with
    | Some p => if Py.truthy (Py.Str p) then Some p else None
    | None => None
    end in
  {| req_method := method self; req_url := url self; req_headers := headers;
     req_data := if bool_decide (method self = "POST"%string) then Some (data self) else None;
     req_timeout := timeout self; req_proxy := proxy_url |}.

Definition record_response (self : StressTester) (status latency : Z) : StressTester :=
  set_stats self
    {| status_codes := Py.incr (status_codes (stats self)) status;
       errors := errors (stats self) |}
    (latencies self ++ [latency]).

Definition record_error (self : StressTester) (key : string) : StressTester :=
  set_stats self
    {| status_codes := status_codes (stats self);
       errors := Py.incr (errors (stats self)) key |}
    (latencies self).

(** From the point where the event loop resumes the body with the result
    [r] of the request (lines 117-129): [start_time] is the clock reading of
    line 109, [now] the reading of line 117.  Returns the updated object and
    the exception leaving the body, if any. *)
Definition send_request_resume (self : StressTester) (start_time now : Z) (r : http_result)
  : StressTester * option exn :=
  match r with
  | Response status =>
      let latency := now - start_time in
      (record_response self status latency, None)
  | Raise e =>
      if isinstance_TimeoutError e then (record_error self "Timeout", None)
      else if isinstance_ClientConnectorError e then (record_error self (str e), None)
      else (record_error self (str e), None)
  end.

(** *** The decorator of lines 103-104

    [tenacity] looks at how a call of the body ended ([outcome]: [None] for
    a normal return) and at the number of calls made so far. *)

Definition stop_after_attempt (max_attempt_number attempt_number : nat) : bool :=
  (max_attempt_number <=? attempt_number)%nat.

Definition wait_exponential (multiplier min max : Z) (attempt_number : nat) : Z :=
  let exp := 2 ^ (Z.of_nat attempt_number - 1) in
  let result := multiplier * exp in
  Z.max (Z.max 0 min) (Z.min result max).

Definition retry_if_exception_type (cls : exn -> bool) (outcome : option exn) : bool :=
  match outcome with
  | Some e => cls e
  | None => false
  end.

Inductive retry_action :=
| Return_                     (* the wrapped call returned *)
| Reraise (e : exn)           (* an exception the predicate does not select, or [RetryError] *)
| Sleep (seconds : Z).        (* back off, then call the body again *)

Definition retry (outcome : option exn) (attempt_number : nat) : retry_action :=
  if negb (retry_if_exception_type isinstance_ClientError outcome) then
    match outcome with
    | None => Return_
    | Some e => Reraise e
    end
  else if stop_after_attempt 3 attempt_number then Reraise RetryError
  else Sleep (wait_exponential 1 2 10 attempt_number).

(** ** The fan-out ([run], lines 131-147)

    [run] creates one [sem_task] per unit of [total_requests] and gathers
    them.  A task suspends at [async with sem], at the request inside
    [send_request] and at the back-off sleep of the decorator; between two
    suspension points it runs alone.  The state of a task is the suspension
    point it is parked at.  The connector's own [limit] of line 132 only
    delays the answer to a request and is not modelled. *)

Inductive task :=
| Queued                                      (* created, parked at [async with sem] *)
| Trying (attempt_number : nat) (start_time : Z)  (* holds [sem], parked at the request *)
| Sleeping (attempt_number : nat)             (* holds [sem], parked at the back-off sleep *)
| Finished (raised : option exn).             (* left [async with sem]; result kept by [gather] *)

Definition in_flight (t : task) : bool :=
  match t with
  | Trying _ _ | Sleeping _ => true
  | Queued | Finished _ => false
  end.

Definition is_finished (t : task) : bool :=
  match t with
  | Finished _ => true
  | _ => false
  end.

Definition is_sleeping (t : task) : bool :=
  match t with
  | Sleeping _ => true
  | _ => false
  end.

Definition count (p : task -> bool) (l : list task) : Z :=
  foldr (fun t n => if p t then 1 + n else n) 0 l.

(** The event loop while [run] is dispatching: the tester object, the value
    of the semaphore, the tasks in creation order, every request issued so
    far and every back-off sleep started so far. *)
Record Loop := {
  tester : StressTester;
  sem : Z;
  tasks : list task;
  sent : list request;
  slept : list Z
}.

(** The resumptions the event loop can perform.  [now] is the clock reading
    the resumed code takes, [ua] and [px] are its random draws. *)
Inductive event :=
| Enter (i : nat) (ua px : nat) (now : Z)     (* task [i] acquires [sem]; first call of the body *)
| Reply (i : nat) (r : http_result) (now : Z) (* the request of task [i] is answered with [r] *)
| Wake (i : nat) (ua px : nat) (now : Z).     (* the sleep of task [i] is over; next call *)

Definition step (ev : event) (L : Loop) : option Loop :=
  match ev with
  | Enter i ua px now =>
      match tasks L !! i with
      | Some Queued =>
          if 0 <? sem L then
            Some {| tester := tester L; sem := sem L - 1;
                    tasks := <[i := Trying 1 now]> (tasks L);
                    sent := sent L ++ [send_request_issue (tester L) ua px];
                    slept := slept L |}
          else None
      | _ => None
      end
  | Reply i r now =>
      match tasks L !! i with
      | Some (Trying attempt_number start_time) =>
          let '(self, outcome) := send_request_resume (tester L) start_time now r in
          match retry outcome attempt_number with
          | Return_ =>
              Some {| tester := self; sem := sem L + 1;
                      tasks := <[i := Finished None]> (tasks L);
                      sent := sent L; slept := slept L |}
          | Reraise e =>
              Some {| tester := self; sem := sem L + 1;
                      tasks := <[i := Finished (Some e)]> (tasks L);
                      sent := sent L; slept := slept L |}
          | Sleep seconds =>
              Some {| tester := self; sem := sem L;
                      tasks := <[i := Sleeping attempt_number]> (tasks L);
                      sent := sent L; slept := slept L ++ [seconds] |}
          end
      | _ => None
      end
  | Wake i ua px now =>
      match tasks L !! i with
      | Some (Sleeping attempt_number) =>
          Some {| tester := tester L; sem := sem L;
                  tasks := <[i := Trying (S attempt_number) now]> (tasks L);
                  sent := sent L ++ [send_request_issue (tester L) ua px];
                  slept := slept L |}
      | _ => None
      end
  end.

Fixpoint exec (schedule : list event) (L : Loop) : option Loop :=
  match schedule with
  | [] => Some L
  | ev :: schedule' =>
      match step ev L with
      | Some L' => exec schedule' L'
      | None => None
      end
  end.

(** Lines 132-145: the optional validation, the semaphore (a negative
    initial value raises [ValueError]: [None]) and the creation of the
    tasks.  [net] answers the validation probes. *)
Definition run_start (self : StressTester) (net : nat -> request -> http_result)
  : option Loop :=
  let '(self, probes) :=
    if validate_proxies self && Py.truthy (Py.List (Py.Str <$> proxies self)) then
      let '(self', _, probes) := validate_proxies_async self net in (self', probes)
    else (self, []) in
  if concurrency self <? 0 then None
  else
    Some {| tester := self; sem := concurrency self;
            tasks := replicate (Z.to_nat (total_requests self)) Queued;
            sent := probes; slept := [] |}.

Definition all_finished (L : Loop) : bool := forallb is_finished (tasks L).

(** [run] returns when [gather] has the result of every task: [schedule]
    is the order in which the event loop resumed the tasks; the result is
    [None] when [schedule] is not a complete run from the start state. *)
Definition run (self : StressTester) (net : nat -> request -> http_result)
    (schedule : list event) : option Loop :=
  match run_start self net with
  | Some L0 =>
      match exec schedule L0 with
      | Some L => if all_finished L then Some L else None
      | None => None
      end
  | None => None
  end.

(** ** Latency percentiles ([StressTester._percentile], lines 175-180)

    Latencies are differences of two [time.time()] readings.  They are
    modelled as integer clock ticks: only their order is used here.
    [report] passes the integers 50, 90 and 99 as [percentile]; for a count
    below 2^53 / 100 the floating-point quotient [len * percentile / 100]
    truncates to the integer quotient, which is what [index] is here. *)

Definition _percentile (latencies : list Z) (percentile : Z) : option Z :=
  if bool_decide (latencies = []) then Some 0
  else
    let sorted_latencies := Py.sorted latencies in
    let len := Z.of_nat (length sorted_latencies) in
    (* int(len * percentile / 100): true division, then truncation *)
    let index := Z.quot (len * percentile) 100 in
    if index <? len then Py.getitem sorted_latencies index
    else Py.getitem sorted_latencies (-1).

(** The percentile as the specification words it: sort ascending, take the
    value at index [floor(count * p / 100)] clamped to [count - 1]; 0 when
    nothing was recorded. *)
Definition nearest_rank (latencies : list Z) (p : Z) : Z :=
  match latencies with
  | [] => 0
  | _ :: _ =>
      let count := Z.of_nat (length latencies) in
      let index := Z.min (count * p / 100) (count - 1) in
      default 0 (Py.sorted latencies !! Z.to_nat index)
  end.

(** ** The report ([report], lines 149-173)

    The values [report] logs.  The two lines that divide floating-point
    numbers (requests per second, average latency) are not part of the
    model. *)

Record LatencyLines := {
  min_latency : Z;
  max_latency : Z;
  p50 : option Z;
  p90 : option Z;
  p99 : option Z
}.

Record Report := {
  rep_total_requests : Z;
  rep_successful : Z;
  rep_failed : Z;
  rep_latency : option LatencyLines;
  rep_status_codes : list (Z * Z);
  rep_errors : list (string * Z)
}.

(** Tuples [(code, count)] in Python's lexicographic order. *)
Definition item_le (a b : Z * Z) : Prop :=
  a.1 < b.1 \/ (a.1 = b.1 /\ a.2 <= b.2).

#[export] Instance item_le_dec : RelDecision item_le.
Proof. unfold item_le. solve_decision. Defined.

(** [sorted(errors.items(), key=lambda x: x[1], reverse=True)]: by count,
    descending, entries with equal counts in their dictionary order. *)
Fixpoint insert_by_count (x : string * Z) (l : list (string * Z)) : list (string * Z) :=
  match l with
  | [] => [x]
  | y :: l' => if y.2 <=? x.2 then x :: y :: l' else y :: insert_by_count x l'
  end.

Definition sorted_by_count_desc (l : list (string * Z)) : list (string * Z) :=
  foldr insert_by_count [] l.

Definition report (self : StressTester) : Report :=
  let successful := Py.sum (Py.values (status_codes (stats self))) in
  let failed := total_requests self - successful in
  {| rep_total_requests := total_requests self;
     rep_successful := successful;
     rep_failed := failed;
     rep_latency :=
       match latencies self with
       | [] => None
       | x :: l =>
           Some {| min_latency := foldr Z.min x l;
                   max_latency := foldr Z.max x l;
                   p50 := _percentile (latencies self) 50;
                   p90 := _percentile (latencies self) 90;
                   p99 := _percentile (latencies self) 99 |}
       end;
     rep_status_codes := merge_sort item_le (status_codes (stats self));
     rep_errors := sorted_by_count_desc (errors (stats self)) |}.

(** ** [main] (lines 182-225) *)

(** The constructor of [StressTester] is annotated: [str], [int],
    [List[str]], [bool].  These read a resolved value at its annotated
    type ([bool] is a subclass of [int]). *)
Definition as_str (v : Py.val) : option string :=
  match v with Py.Str s => Some s | _ => None end.

Definition as_int (v : Py.val) : option Z :=
  match v with
  | Py.Int n => Some n
  | Py.Bool b => Some (if b then 1 else 0)
  | _ => None
  end.

Definition as_bool (v : Py.val) : option bool :=
  match v with Py.Bool b => Some b | _ => None end.

Definition as_str_list (v : Py.val) : option (list string) :=
  match v with Py.List l => mapM as_str l | _ => None end.

Inductive main_result :=
| UsageError                     (* [argparse] ended the process *)
| Aborted (logged : string)      (* the early [return] of line 203 *)
| IllTyped                       (* a resolved value outside the annotations: not modelled *)
| Completed (log_file : string) (final : Loop) (rep : Report).

(** [main] for the command line [cli], the files [fs], the answers [net] to
    the validation probes and the order [schedule] in which the event loop
    resumes the tasks of [run]. *)
Definition main (cli : Cli.t) (fs : string -> option (gmap string Py.val))
    (net : nat -> request -> http_result) (schedule : list event) : option main_result :=
  match parse_args cli with
  | None => Some UsageError
  | Some args =>
      let config := main_config fs args in
      let r := main_resolve args config in
      if negb (Py.truthy (r_url r)) then
        Some (Aborted
          "Target URL must be specified either as a command-line argument or in the config file.")
      else
        match as_str (r_url r), as_int (r_threads r), as_int (r_requests_per_thread r),
              as_int (r_timeout r), as_str (r_method r), as_str (r_data r),
              as_str_list (r_proxies r), as_str (r_log_file r),
              as_bool (r_validate_proxies r) with
        | Some url, Some threads, Some requests_per_thread, Some timeout, Some method,
          Some data, Some proxies, Some log_file, Some validate_proxies =>
            let total_requests := threads * requests_per_thread in
            let self :=
              __init__ url total_requests threads timeout method data proxies
                       validate_proxies in
            match run self net schedule with
            | Some L => Some (Completed log_file L (report (tester L)))
            | None => None
            end
        | _, _, _, _, _, _, _, _, _ => Some IllTyped
        end
  end.

(** The number of outcomes an object has recorded. *)
Definition outcomes (self : StressTester) : Z :=
  Py.sum (Py.values (status_codes (stats self))) + Py.sum (Py.values (errors (stats self))).

(** The requests a run of [main] put on the network, and the outcomes it
    recorded. *)
Definition requests_of (m : main_result) : list request :=
  match m with
  | Completed _ L _ => sent L
  | _ => []
  end.

Definition outcomes_of (m : main_result) : Z :=
  match m with
  | Completed _ L _ => outcomes (tester L)
  | _ => 0
  end.

(** The resumptions a task still needs before it is finished, and their
    total over the tasks of a loop. *)
Definition weight (t : task) : Z :=
  match t with
  | Queued | Sleeping _ => 2
  | Trying _ _ => 1
  | Finished _ => 0
  end.

Definition remaining (l : list task) : Z := foldr (fun t n => weight t + n) 0 l.

Definition b2z (b : bool) : Z := if b then 1 else 0.

(** Tasks that have passed [async with sem], and tasks whose result is an
    exception. *)
Definition admitted (t : task) : bool :=
  match t with
  | Queued => false
  | _ => true
  end.

Definition has_raised (t : task) : bool :=
  match t with
  | Finished (Some _) => true
  | _ => false
  end.

(** The requests of the dispatch phase: everything sent after the start
    state [L0], which holds the validation probes. *)
Definition dispatched (L0 L : Loop) : list request := drop (length (sent L0)) (sent L).

(** A schedule in which every request is answered by a timeout. *)
Definition timeout_reply (ev : event) : bool :=
  match ev with
  | Reply _ (Raise e) _ => isinstance_TimeoutError e
  | Reply _ (Response _) _ => false
  | Enter _ _ _ _ | Wake _ _ _ _ => true
  end.


(** The error histogram after [n] timeouts and nothing else. *)
Definition timeout_histogram (n : Z) : list (string * Z) :=
  if n =? 0 then [] else [("Timeout"%string, n)].


(** Two testers with the same settings: they differ at most in the
    statistics. *)
Definition same_settings (a b : StressTester) : Prop :=
  url a = url b /\ total_requests a = total_requests b /\ concurrency a = concurrency b /\
  timeout a = timeout b /\ method a = method b /\ data a = data b /\
  proxies a = proxies b /\ validate_proxies a = validate_proxies b.

(** * Properties *)

(** ** Percentiles *)

Section Percentiles.

Implicit Types (latencies l : list Z) (p i : Z).

Lemma sorted_ascending l : StronglySorted Z.le (Py.sorted l).
Proof. apply (StronglySorted_merge_sort Z.le). Qed.

Lemma sorted_permutation l : Py.sorted l ≡ₚ l.
Proof. apply (merge_sort_Permutation Z.le). Qed.

Lemma sorted_length l : length (Py.sorted l) = length l.
Proof. by rewrite sorted_permutation. Qed.

Lemma getitem_front {A} (l : list A) i :
  0 <= i < Z.of_nat (length l) -> Py.getitem l i = l !! Z.to_nat i.
Proof.
  intros [Hlo Hhi]. unfold Py.getitem.
  apply Z.leb_le in Hlo. apply Z.ltb_lt in Hhi. by rewrite Hlo, Hhi.
Qed.

Lemma ascending_lookup l (m n : nat) a b :
  StronglySorted Z.le l -> l !! m = Some a -> l !! n = Some b -> (m <= n)%nat -> a <= b.
Proof.
  intros Hs. revert m n. induction Hs as [|x l Hs IH Hx]; intros m n Hm Hn Hle.
  - by rewrite lookup_nil in Hm.
  - destruct m as [|m], n as [|n]; simpl in *; simplify_eq; try lia.
    + rewrite Forall_forall in Hx. apply Hx. eapply list_elem_of_lookup_2; eauto.
    + eapply IH; eauto. lia.
Qed.

(** For the percentiles the report asks for, the index is the floor of
    [count * p / 100] and lies inside the list. *)
Lemma index_in_range (count p : Z) :
  0 < count -> 0 <= p < 100 ->
  Z.quot (count * p) 100 = count * p / 100 /\ 0 <= count * p / 100 < count.
Proof.
  intros Hc Hp. split.
  - apply Z.quot_div_nonneg; nia.
  - split; [apply Z.div_pos; nia | apply Z.div_lt_upper_bound; nia].
Qed.

Lemma _percentile_value latencies p :
  latencies <> [] -> 0 <= p < 100 ->
  _percentile latencies p =
    Py.sorted latencies !! Z.to_nat (Z.of_nat (length latencies) * p / 100) /\
  is_Some (_percentile latencies p).
Proof.
  intros Hne Hp. unfold _percentile.
  rewrite bool_decide_eq_false_2 by done. cbv zeta.
  rewrite sorted_length.
  assert (0 < Z.of_nat (length latencies)) as Hc by (destruct latencies; simpl; [done | lia]).
  destruct (index_in_range _ p Hc Hp) as [-> [Hlo Hhi]].
  destruct (Z.ltb_spec (Z.of_nat (length latencies) * p / 100) (Z.of_nat (length latencies)));
    [| lia].
  rewrite getitem_front by (rewrite sorted_length; lia).
  split; [done |].
  apply lookup_lt_is_Some. rewrite sorted_length. lia.
Qed.

End Percentiles.

Example percentile_five :
  _percentile [30; 10; 50; 20; 40] 50 = Some 30 /\
  _percentile [30; 10; 50; 20; 40] 90 = Some 50 /\
  _percentile [30; 10; 50; 20; 40] 99 = Some 50.
Proof. by vm_compute. Qed.

(** At 100 the index runs off the end and the last element is taken. *)
Example percentile_clamped : _percentile [30; 10; 50; 20; 40] 100 = Some 50.
Proof. by vm_compute. Qed.

(** C5. For p in {50, 90, 99} the percentile of the recorded latencies is
    the nearest-rank value: the latencies are sorted ascending (the sorted
    list is ordered and is a rearrangement of the recorded ones), the index
    is floor(count * p / 100) clamped to count - 1, the result is the value
    at that index, and it is 0 when nothing was recorded. *)
Theorem percentile_nearest_rank (latencies : list Z) (p : Z) :
  p = 50 \/ p = 90 \/ p = 99 ->
  _percentile latencies p = Some (nearest_rank latencies p) /\
  StronglySorted Z.le (Py.sorted latencies) /\
  Py.sorted latencies ≡ₚ latencies.
Proof.
  intros Hp. split; [| split; [apply sorted_ascending | apply sorted_permutation]].
  destruct latencies as [|x l] eqn:E; [reflexivity |]. rewrite <- E.
  assert (latencies <> []) as Hne by (by rewrite E).
  assert (0 <= p < 100) as Hr by lia.
  destruct (_percentile_value latencies p Hne Hr) as [Hv [v Hs]].
  rewrite Hs. f_equal. rewrite Hv in Hs.
  unfold nearest_rank. rewrite E, <- E.
  assert (0 < Z.of_nat (length latencies)) as Hc by (rewrite E; simpl; lia).
  destruct (index_in_range _ p Hc Hr) as [_ [Hlo Hhi]].
  rewrite Z.min_l by lia. by rewrite Hs.
Qed.

Lemma percentile_nearest_rank_witness :
  (90 = 50 \/ 90 = 90 \/ 90 = 99) /\
  _percentile [30; 10; 50; 20; 40] 90 = Some (nearest_rank [30; 10; 50; 20; 40] 90) /\
  nearest_rank [30; 10; 50; 20; 40] 90 = 50.
Proof.
  split; [right; left; reflexivity |].
  split; [| vm_compute; reflexivity].
  apply (percentile_nearest_rank [30; 10; 50; 20; 40] 90).
  right; left; reflexivity.
Defined.

(** C6. Whenever at least one latency was recorded the three percentiles are
    defined and p50 <= p90 <= p99; for the empty latency sequence all three
    are 0. *)
Theorem percentiles_monotone :
  (forall (x : Z) (l : list Z), exists a b c,
      _percentile (x :: l) 50 = Some a /\
      _percentile (x :: l) 90 = Some b /\
      _percentile (x :: l) 99 = Some c /\
      a <= b /\ b <= c) /\
  _percentile [] 50 = Some 0 /\ _percentile [] 90 = Some 0 /\ _percentile [] 99 = Some 0.
Proof.
  split; [| by repeat split].
  intros x l.
  assert (x :: l <> []) as Hne by done.
  destruct (_percentile_value (x :: l) 50 Hne ltac:(lia)) as [Ha [a Ea]].
  destruct (_percentile_value (x :: l) 90 Hne ltac:(lia)) as [Hb [b Eb]].
  destruct (_percentile_value (x :: l) 99 Hne ltac:(lia)) as [Hc [c Ec]].
  exists a, b, c. repeat split; try done.
  - rewrite Ha in Ea. rewrite Hb in Eb.
    eapply ascending_lookup; [apply sorted_ascending | exact Ea | exact Eb |].
    apply Z2Nat.inj_le; [apply Z.div_pos; lia | apply Z.div_pos; lia |].
    apply Z.div_le_mono; lia.
  - rewrite Hb in Eb. rewrite Hc in Ec.
    eapply ascending_lookup; [apply sorted_ascending | exact Eb | exact Ec |].
    apply Z2Nat.inj_le; [apply Z.div_pos; lia | apply Z.div_pos; lia |].
    apply Z.div_le_mono; lia.
Qed.

(** ** Histograms *)

Section Histograms.

Context {K : Type} `{EqDecision K}.
Implicit Types (d : list (K * Z)) (k : K).

Lemma sum_values_incr d k :
  Py.sum (Py.values (Py.incr d k)) = Py.sum (Py.values d) + 1.
Proof.
  unfold Py.sum, Py.values. induction d as [|[k' n] d IH]; [simpl; lia |].
  cbn [Py.incr]. destruct (decide (k' = k)); rewrite !fmap_cons; cbn [foldr snd]; lia.
Qed.

Lemma item_incr_eq d k : Py.item (Py.incr d k) k = Py.item d k + 1.
Proof.
  induction d as [|[k' n] d IH]; simpl.
  - by rewrite decide_True.
  - destruct (decide (k' = k)) as [->|Hne]; simpl.
    + by rewrite decide_True.
    + by rewrite decide_False.
Qed.

Lemma item_incr_ne d k k' : k <> k' -> Py.item (Py.incr d k) k' = Py.item d k'.
Proof.
  intros Hne. induction d as [|[k0 n] d IH]; simpl.
  - by rewrite decide_False.
  - destruct (decide (k0 = k)) as [->|Hne0]; simpl.
    + by rewrite !decide_False.
    + destruct (decide (k0 = k')); done.
Qed.

End Histograms.

(** ** One call of the body *)

(** Every handler of the body swallows its exception: the body never
    raises, whatever the request does. *)
Lemma send_request_resume_returns self start_time now r :
  (send_request_resume self start_time now r).2 = None.
Proof.
  destruct r as [status|e]; simpl; [done |].
  destruct (isinstance_TimeoutError e); [done |].
  by destruct (isinstance_ClientConnectorError e).
Qed.

(** ... and records exactly one outcome. *)
Lemma send_request_resume_outcomes self start_time now r :
  outcomes (send_request_resume self start_time now r).1 = outcomes self + 1.
Proof.
  unfold outcomes. destruct r as [status|e]; simpl.
  - rewrite sum_values_incr. lia.
  - destruct (isinstance_TimeoutError e); [| destruct (isinstance_ClientConnectorError e)];
      simpl; rewrite sum_values_incr; lia.
Qed.

Lemma send_request_resume_config self start_time now r :
  let self' := (send_request_resume self start_time now r).1 in
  concurrency self' = concurrency self /\ total_requests self' = total_requests self /\
  proxies self' = proxies self.
Proof.
  destruct r as [status|e]; simpl; [done |].
  destruct (isinstance_TimeoutError e); [| destruct (isinstance_ClientConnectorError e)]; done.
Qed.

(** So the decorator always sees a normal return. *)
Lemma retry_after_body self start_time now r attempt_number :
  retry (send_request_resume self start_time now r).2 attempt_number = Return_.
Proof. by rewrite send_request_resume_returns. Qed.

(** What a [Reply] does to the loop, with the decorator resolved. *)
Lemma step_Reply i r now L attempt_number start_time :
  tasks L !! i = Some (Trying attempt_number start_time) ->
  step (Reply i r now) L =
    Some {| tester := (send_request_resume (tester L) start_time now r).1;
            sem := sem L + 1;
            tasks := <[i := Finished None]> (tasks L);
            sent := sent L; slept := slept L |}.
Proof.
  intros Hi. simpl. rewrite Hi.
  pose proof (retry_after_body (tester L) start_time now r attempt_number) as Hr.
  destruct (send_request_resume (tester L) start_time now r) as [self outcome]. simpl in *.
  by rewrite Hr.
Qed.

(** ** Counting tasks *)

Section Counting.

Implicit Types (p : task -> bool) (l : list task) (t : task).

Lemma count_nonneg p l : 0 <= count p l.
Proof. induction l as [|t l IH]; simpl; [done |]. destruct (p t); lia. Qed.

Lemma count_insert p l (i : nat) t t' :
  l !! i = Some t -> count p (<[i := t']> l) = count p l - b2z (p t) + b2z (p t').
Proof.
  revert i. induction l as [|x l IH]; intros [|i] Hi; simplify_eq/=.
  - unfold b2z. destruct (p t), (p t'); lia.
  - rewrite (IH i Hi). destruct (p x); lia.
Qed.

Lemma remaining_insert l (i : nat) t t' :
  l !! i = Some t -> remaining (<[i := t']> l) = remaining l - weight t + weight t'.
Proof.
  revert i. induction l as [|x l IH]; intros [|i] Hi; simplify_eq/=; [lia |].
  rewrite (IH i Hi). lia.
Qed.

Lemma remaining_nonneg l : 0 <= remaining l.
Proof. induction l as [|t l IH]; simpl; [done |]. destruct t; simpl; lia. Qed.

Lemma count_replicate p (n : nat) t : p t = false -> count p (replicate n t) = 0.
Proof. intros Hp. induction n as [|n IH]; simpl; [done |]. by rewrite Hp. Qed.

Lemma remaining_replicate (n : nat) t : remaining (replicate n t) = Z.of_nat n * weight t.
Proof. induction n as [|n IH]; simpl; [done |]. rewrite IH. lia. Qed.

Lemma count_all p l : forallb p l = true -> count p l = Z.of_nat (length l).
Proof.
  induction l as [|t l IH]; simpl; [done |].
  intros [Ht Hl]%andb_true_iff. rewrite Ht, (IH Hl). lia.
Qed.

Lemma count_positive p l : 0 < count p l -> exists (i : nat) t, l !! i = Some t /\ p t = true.
Proof.
  induction l as [|x l IH]; simpl; [lia |].
  destruct (p x) eqn:Hx; [by exists 0%nat, x |].
  intros [i [t [Hi Ht]]]%IH. by exists (S i), t.
Qed.

Lemma some_unfinished l :
  forallb is_finished l = false -> exists (i : nat) t, l !! i = Some t /\ is_finished t = false.
Proof.
  induction l as [|x l IH]; simpl; [done |].
  destruct (is_finished x) eqn:Hx; [| by exists 0%nat, x].
  simpl. intros [i [t [Hi Ht]]]%IH. by exists (S i), t.
Qed.

End Counting.

(** ** One resumption *)

(** Every resumption moves exactly one task one suspension point further. *)
Lemma step_inv ev L L' :
  step ev L = Some L' ->
  exists (i : nat) t t',
    tasks L !! i = Some t /\ tasks L' = <[i := t']> (tasks L) /\
    sem L' = sem L + b2z (in_flight t) - b2z (in_flight t') /\
    (in_flight t = false -> 0 < sem L) /\
    is_finished t = false /\
    outcomes (tester L') = outcomes (tester L) + b2z (is_finished t') /\
    weight t' = weight t - 1 /\
    concurrency (tester L') = concurrency (tester L) /\
    total_requests (tester L') = total_requests (tester L).
Proof.
  destruct ev as [i ua px now | i r now | i ua px now]; intros Hs.
  - simpl in Hs. destruct (tasks L !! i) as [[| | |]|] eqn:Hi; try done.
    destruct (Z.ltb_spec 0 (sem L)); [| done]. simplify_eq.
    exists i, Queued, (Trying 1 now). simpl. repeat split; try done; lia.
  - destruct (tasks L !! i) as [[|k t0| |]|] eqn:Hi; try (simpl in Hs; by rewrite Hi in Hs).
    rewrite (step_Reply _ _ _ _ _ _ Hi) in Hs. simplify_eq.
    exists i, (Trying k t0), (Finished None). simpl.
    destruct (send_request_resume_config (tester L) t0 now r) as (? & ? & ?).
    rewrite send_request_resume_outcomes. repeat split; try done; lia.
  - simpl in Hs. destruct (tasks L !! i) as [[| |k|]|] eqn:Hi; try done. simplify_eq.
    exists i, (Sleeping k), (Trying (S k) now). simpl. repeat split; try done; lia.
Qed.

(** ** Invariants of the event loop *)

Lemma exec_app schedule rest L :
  exec (schedule ++ rest) L = exec schedule L ≫= exec rest.
Proof.
  revert L. induction schedule as [|ev schedule IH]; intros L; simpl; [done |].
  destruct (step ev L); [apply IH | done].
Qed.

Lemma exec_inv schedule L L' :
  exec schedule L = Some L' ->
  (0 <= sem L -> 0 <= sem L') /\
  sem L' + count in_flight (tasks L') = sem L + count in_flight (tasks L) /\
  outcomes (tester L') - count is_finished (tasks L') =
    outcomes (tester L) - count is_finished (tasks L) /\
  remaining (tasks L') = remaining (tasks L) - Z.of_nat (length schedule) /\
  length (tasks L') = length (tasks L) /\
  concurrency (tester L') = concurrency (tester L) /\
  total_requests (tester L') = total_requests (tester L).
Proof.
  revert L. induction schedule as [|ev schedule IH]; intros L He; simpl in He.
  - simplify_eq. repeat split; try done. simpl; lia.
  - destruct (step ev L) as [L1|] eqn:Hs; [| done].
    destruct (step_inv _ _ _ Hs)
      as (i & t & t' & Hi & Ht & Hsem & Hfree & Hunf & Hout & Hw & Hc & Htot).
    destruct (IH _ He) as (Is & Ic & Io & Ir & Il & Icc & It).
    rewrite Ht in Ic, Io, Ir, Il.
    rewrite (count_insert in_flight _ _ _ _ Hi) in Ic.
    rewrite (count_insert is_finished _ _ _ _ Hi) in Io.
    rewrite (remaining_insert _ _ _ _ Hi) in Ir.
    rewrite length_insert in Il. rewrite Hunf in Io.
    repeat split; try congruence.
    + intros Hnn. apply Is. rewrite Hsem. unfold b2z in *.
      destruct (in_flight t); [destruct (in_flight t'); lia |].
      specialize (Hfree eq_refl). destruct (in_flight t'); lia.
    + lia.
    + unfold b2z at 1 in Io. lia.
    + simpl length. lia.
Qed.

Lemma run_start_inv self net L0 :
  run_start self net = Some L0 ->
  0 <= concurrency self /\ sem L0 = concurrency self /\
  tasks L0 = replicate (Z.to_nat (total_requests self)) Queued /\
  stats (tester L0) = stats self /\ latencies (tester L0) = latencies self /\
  concurrency (tester L0) = concurrency self /\
  total_requests (tester L0) = total_requests self /\
  slept L0 = [].
Proof.
  unfold run_start.
  destruct (validate_proxies self && Py.truthy (Py.List (Py.Str <$> proxies self))).
  - simpl. destruct (Z.ltb_spec (concurrency self) 0); [done |].
    intros ?; simplify_eq. simpl. repeat split; try done; lia.
  - destruct (Z.ltb_spec (concurrency self) 0); [done |].
    intros ?; simplify_eq. simpl. repeat split; try done; lia.
Qed.

Lemma weight_le_remaining (l : list task) (i : nat) t :
  l !! i = Some t -> weight t <= remaining l.
Proof.
  revert i. induction l as [|x l IH]; intros [|i] Hi; simplify_eq/=.
  - pose proof (remaining_nonneg l). lia.
  - specialize (IH i Hi). destruct x; simpl; lia.
Qed.

(** While a task is unfinished and the semaphore was created with room for
    at least one task, the event loop has something to resume. *)
Lemma enabled L :
  0 <= sem L -> 1 <= sem L + count in_flight (tasks L) -> all_finished L = false ->
  exists ev L1, step ev L = Some L1.
Proof.
  intros Hsem Hcap Hunf.
  destruct (Z.lt_ge_cases 0 (count in_flight (tasks L))) as [Hpos|Hzero].
  - destruct (count_positive _ _ Hpos) as (j & t & Hj & Ht).
    destruct t as [|k t0|k|]; try done.
    + eexists (Reply j (Response 200) 0), _. by apply step_Reply with (1 := Hj).
    + eexists (Wake j 0 0 0), _. simpl. by rewrite Hj.
  - destruct (some_unfinished _ Hunf) as (i & t & Hi & Ht).
    destruct t as [|k t0|k|]; try done.
    + eexists (Enter i 0 0 0), _. simpl. rewrite Hi.
      destruct (Z.ltb_spec 0 (sem L)); [done | lia].
    + pose proof (count_insert in_flight _ _ _ Queued Hi) as Hc.
      pose proof (count_nonneg in_flight (<[i := Queued]> (tasks L))).
      simpl in Hc. lia.
    + pose proof (count_insert in_flight _ _ _ Queued Hi) as Hc.
      pose proof (count_nonneg in_flight (<[i := Queued]> (tasks L))).
      simpl in Hc. lia.
Qed.

(** Every partial run can be carried on until every task is finished. *)
Lemma can_finish (n : nat) L :
  remaining (tasks L) = Z.of_nat n ->
  0 <= sem L -> 1 <= sem L + count in_flight (tasks L) ->
  exists rest L', exec rest L = Some L' /\ all_finished L' = true.
Proof.
  revert L. induction n as [|n IH]; intros L Hn Hsem Hcap.
  - destruct (all_finished L) eqn:Hf; [by exists [], L |].
    destruct (some_unfinished _ Hf) as (i & t & Hi & Ht).
    pose proof (weight_le_remaining _ _ _ Hi). destruct t; simpl in *; try done; lia.
  - destruct (all_finished L) eqn:Hf; [by exists [], L |].
    destruct (enabled L Hsem Hcap Hf) as (ev & L1 & Hs).
    assert (exec [ev] L = Some L1) as He by (simpl; by rewrite Hs).
    destruct (exec_inv _ _ _ He) as (Is & Ic & _ & Ir & _).
    destruct (IH L1) as (rest & L' & Hr & Hd); [simpl in Ir; lia | auto | lia |].
    exists (ev :: rest), L'. simpl. by rewrite Hs.
Qed.

Lemma run_start_some self net :
  0 <= concurrency self -> exists L0, run_start self net = Some L0.
Proof.
  intros Hc. unfold run_start.
  destruct (validate_proxies self && Py.truthy (Py.List (Py.Str <$> proxies self))); simpl;
    (destruct (Z.ltb_spec (concurrency self) 0); [lia | eauto]).
Qed.

(** ** The claims about a run *)

(** C1. For every run of a freshly constructed tester with a non-negative
    number of attempts and room for at least one task in the semaphore: when
    [run] returns, the status-code counts plus the error counts add up to
    [total_requests].  At every point of the run each finished task has
    contributed exactly one outcome, no run is longer than two resumptions
    per task, and every partial run can be carried on to the end, so the
    total is reached. *)
Theorem outcomes_equal_total (url : string) (total limit timeout : Z) (method data : string)
    (proxies : list string) (validate_proxies : bool) (net : nat -> request -> http_result) :
  0 <= total -> 1 <= limit ->
  let self := __init__ url total limit timeout method data proxies validate_proxies in
  (forall schedule L, run self net schedule = Some L ->
     Py.sum (Py.values (status_codes (stats (tester L)))) +
     Py.sum (Py.values (errors (stats (tester L)))) = total) /\
  (exists L0, run_start self net = Some L0) /\
  (forall L0 schedule L, run_start self net = Some L0 -> exec schedule L0 = Some L ->
     outcomes (tester L) = count is_finished (tasks L) /\
     Z.of_nat (length schedule) <= 2 * total /\
     exists rest L', run self net (schedule ++ rest) = Some L').
Proof.
  intros Htot Hlim self.
  assert (forall L0 schedule L, run_start self net = Some L0 -> exec schedule L0 = Some L ->
            outcomes (tester L) = count is_finished (tasks L) /\
            remaining (tasks L) = 2 * total - Z.of_nat (length schedule) /\
            length (tasks L) = Z.to_nat total /\
            0 <= sem L /\ 1 <= sem L + count in_flight (tasks L)) as Hinv.
  { intros L0 schedule L H0 He.
    destruct (run_start_inv _ _ _ H0) as (Hc & Hsem & Ht & Hst & _ & _ & _).
    destruct (exec_inv _ _ _ He) as (Is & Ic & Io & Ir & Il & _).
    rewrite Ht in Ic, Io, Ir, Il.
    rewrite count_replicate in Ic, Io by done.
    rewrite remaining_replicate in Ir. rewrite length_replicate in Il.
    assert (outcomes (tester L0) = 0) as Ho by (unfold outcomes; by rewrite Hst).
    simpl in Hsem, Ir. repeat split; try lia. done. }
  split; [| split].
  - intros schedule L Hr. unfold run in Hr.
    destruct (run_start self net) as [L0|] eqn:H0; [| done].
    destruct (exec schedule L0) as [L1|] eqn:He; [| done].
    destruct (all_finished L1) eqn:Hf; [| done]. simplify_eq.
    destruct (Hinv _ _ _ eq_refl He) as (Ho & _ & Hl & _).
    change (outcomes (tester L) = total).
    unfold all_finished in Hf. rewrite Ho, (count_all _ _ Hf), Hl. lia.
  - apply run_start_some. simpl. lia.
  - intros L0 schedule L H0 He.
    destruct (Hinv _ _ _ H0 He) as (Ho & Hr & Hl & Hs & Hc).
    split; [done |]. pose proof (remaining_nonneg (tasks L)). split; [lia |].
    destruct (can_finish (Z.to_nat (remaining (tasks L))) L) as (rest & L' & Hrest & Hf);
      [lia | done | done |].
    exists rest, L'. unfold run. rewrite H0, exec_app, He. simpl. by rewrite Hrest, Hf.
Qed.

Lemma outcomes_equal_total_witness :
  0 <= 2 /\ 1 <= 1 /\
  let self := __init__ "http://127.0.0.1:8080/" 2 1 5 "get" "" [] false in
  let schedule :=
    [Enter 1 0 0 10; Reply 1 (Response 503) 14; Enter 0 3 0 15; Reply 0 (Raise TimeoutError) 20] in
  exists L, run self (fun _ _ => Response 200) schedule = Some L /\
            status_codes (stats (tester L)) = [(503, 1)] /\
            errors (stats (tester L)) = [("Timeout"%string, 1)] /\
            Py.sum (Py.values (status_codes (stats (tester L)))) +
            Py.sum (Py.values (errors (stats (tester L)))) = 2.
Proof.
  split; [lia |]. split; [lia |]. intros self schedule.
  destruct (run self (fun _ _ => Response 200) schedule) as [L|] eqn:Hr; [| by vm_compute in Hr].
  exists L. split; [done |].
  split; [vm_compute in Hr; by simplify_eq |].
  split; [vm_compute in Hr; by simplify_eq |].
  by apply (outcomes_equal_total "http://127.0.0.1:8080/" 2 1 5 "get" "" [] false
              (fun _ _ => Response 200) ltac:(lia) ltac:(lia)) with (schedule := schedule).
Defined.

(** C4. The tasks are all created, and queued, when dispatching starts; at
    every point of every run the number of tasks in flight (inside
    [async with sem]) is at most [concurrency]. *)
Theorem in_flight_bounded (self : StressTester) (net : nat -> request -> http_result)
    (L0 : Loop) (schedule : list event) (L : Loop) :
  run_start self net = Some L0 -> exec schedule L0 = Some L ->
  tasks L0 = replicate (Z.to_nat (total_requests self)) Queued /\
  count in_flight (tasks L) <= concurrency self.
Proof.
  intros H0 He.
  destruct (run_start_inv _ _ _ H0) as (Hc & Hsem & Ht & _).
  destruct (exec_inv _ _ _ He) as (Is & Ic & _).
  split; [done |].
  rewrite Ht, count_replicate in Ic by done. lia.
Qed.

Lemma in_flight_bounded_witness :
  let self := __init__ "http://127.0.0.1:8080/" 3 2 5 "GET" "" [] false in
  let net := fun (_ : nat) (_ : request) => Response 200 in
  let L0 :=
    {| tester := self; sem := 2; tasks := [Queued; Queued; Queued]; sent := []; slept := [] |} in
  let schedule := [Enter 0 0 0 10; Enter 2 1 0 11] in
  exists L,
    run_start self net = Some L0 /\ exec schedule L0 = Some L /\
    tasks L = [Trying 1 10; Queued; Trying 1 11] /\
    count in_flight (tasks L) <= 2.
Proof.
  intros self net L0 schedule.
  destruct (exec schedule L0) as [L|] eqn:He; [| by vm_compute in He].
  exists L. split; [reflexivity |]. split; [reflexivity |].
  split; [vm_compute in He; by simplify_eq |].
  exact (proj2 (in_flight_bounded self net L0 schedule L eq_refl He)).
Defined.

(** With both places of the semaphore taken, a third task is not admitted;
    it is admitted once a place is given back. *)
Example third_task_waits :
  let self := __init__ "http://127.0.0.1:8080/" 3 2 5 "GET" "" [] false in
  let net := fun (_ : nat) (_ : request) => Response 200 in
  (run_start self net ≫= exec [Enter 0 0 0 10; Enter 2 1 0 11; Enter 1 2 0 12]) = None /\
  (tasks <$> (run_start self net ≫=
      exec [Enter 0 0 0 10; Enter 2 1 0 11; Reply 0 (Response 200) 12; Enter 1 2 0 13]))
    = Some [Finished None; Trying 1 13; Trying 1 11].
Proof. split; reflexivity. Qed.

(** C3. When the request of a task is answered by a response, whatever its
    status code, the task finishes normally with one success recorded: the
    count of that status code grows by one and no other count changes, the
    latency [now - start_time] is appended to the latencies, the error
    histogram is untouched, and nothing is retried. *)
Theorem response_is_success (L : Loop) (i attempt_number : nat)
    (start_time status now : Z) :
  tasks L !! i = Some (Trying attempt_number start_time) ->
  exists L',
    step (Reply i (Response status) now) L = Some L' /\
    tasks L' = <[i := Finished None]> (tasks L) /\
    latencies (tester L') = latencies (tester L) ++ [now - start_time] /\
    Py.item (status_codes (stats (tester L'))) status =
      Py.item (status_codes (stats (tester L))) status + 1 /\
    (forall code, code <> status ->
       Py.item (status_codes (stats (tester L'))) code =
       Py.item (status_codes (stats (tester L))) code) /\
    errors (stats (tester L')) = errors (stats (tester L)) /\
    sent L' = sent L /\ slept L' = slept L.
Proof.
  intros Hi. eexists. split; [by apply step_Reply with (1 := Hi) |]. simpl.
  repeat split; try done.
  - apply item_incr_eq.
  - intros code Hne. by apply item_incr_ne.
Qed.

Lemma response_is_success_witness :
  let self := __init__ "http://127.0.0.1:8080/" 1 1 5 "GET" "" [] false in
  let L :=
    {| tester := self; sem := 0; tasks := [Trying 1 100]; sent := []; slept := [] |} in
  tasks L !! 0%nat = Some (Trying 1 100) /\
  exists L',
    step (Reply 0 (Response 500) 130) L = Some L' /\
    tasks L' = [Finished None] /\
    latencies (tester L') = [30] /\
    status_codes (stats (tester L')) = [(500, 1)] /\
    errors (stats (tester L')) = [].
Proof.
  intros self L. split; [reflexivity |].
  destruct (response_is_success L 0 1 100 500 130 eq_refl)
    as (L' & Hs & Ht & Hl & _ & _ & He & _).
  exists L'. split; [exact Hs |].
  split; [exact Ht |]. split; [exact Hl |].
  split; [vm_compute in Hs; by simplify_eq | exact He].
Defined.

(** No run ever backs off: no task is put to sleep and no sleep is
    started, whatever the requests raise. *)
Lemma step_never_sleeps ev L L' :
  step ev L = Some L' -> count is_sleeping (tasks L) = 0 ->
  slept L' = slept L /\ count is_sleeping (tasks L') = 0.
Proof.
  destruct ev as [i ua px now | i r now | i ua px now]; intros Hs Hz.
  - simpl in Hs. destruct (tasks L !! i) as [[| | |]|] eqn:Hi; try done.
    destruct (0 <? sem L); [| done]. simplify_eq. simpl.
    rewrite (count_insert _ _ _ _ _ Hi), Hz. by simpl.
  - destruct (tasks L !! i) as [[|k t0| |]|] eqn:Hi; try (simpl in Hs; by rewrite Hi in Hs).
    rewrite (step_Reply _ _ _ _ _ _ Hi) in Hs. simplify_eq. simpl.
    rewrite (count_insert _ _ _ _ _ Hi), Hz. by simpl.
  - simpl in Hs. destruct (tasks L !! i) as [[| |k|]|] eqn:Hi; try done.
    pose proof (count_insert is_sleeping _ _ _ Queued Hi) as Hc.
    pose proof (count_nonneg is_sleeping (<[i := Queued]> (tasks L))).
    simpl in Hc. lia.
Qed.


(** What the decorator would do with a [ClientError] leaving the body: back
    off after the first call, give up after the third. *)
Lemma retry_on_ClientError msg :
  retry (Some (ClientError msg)) 1 = Sleep 2 /\
  retry (Some (ClientError msg)) 3 = Reraise RetryError.
Proof. split; reflexivity. Qed.

(** C2 (the code departs from the claim). A request that raises a
    [ClientError] which is neither a timeout nor a connection error is
    recorded by the catch-all handler of the body after the first call; the
    decorator sees a normal return, so there is one request, no back-off
    sleep and no further call: the task is finished and cannot be woken. *)
Theorem transport_error_not_retried :
  let self := __init__ "http://127.0.0.1:8080/" 1 1 5 "GET" "" [] false in
  let net := fun (_ : nat) (_ : request) => Response 200 in
  forall (msg : string) (ua px : nat) (t0 t1 : Z),
  let boom := Raise (ClientError msg) in
  (exists L,
     run self net [Enter 0 ua px t0; Reply 0 boom t1] = Some L /\
     tasks L = [Finished None] /\
     length (sent L) = 1%nat /\ slept L = [] /\
     errors (stats (tester L)) = [(msg, 1)] /\
     status_codes (stats (tester L)) = []) /\
  (forall ua' px' now,
     run_start self net ≫=
       exec [Enter 0 ua px t0; Reply 0 boom t1; Wake 0 ua' px' now] = None) /\
  (forall now r,
     run_start self net ≫=
       exec [Enter 0 ua px t0; Reply 0 boom t1; Reply 0 r now] = None).
Proof.
  intros self net msg ua px t0 t1 boom. split; [| split].
  - eexists. split; [reflexivity |]. by repeat split.
  - reflexivity.
  - reflexivity.
Qed.

(** ** Proxy validation *)

Lemma validate_proxy_verdict get proxy :
  validate_proxy get proxy = (probe_ok (get (probe_request proxy)), [probe_request proxy]).
Proof.
  unfold validate_proxy. destruct (get (probe_request proxy)) as [status|e]; simpl; [| done].
  destruct (Z.eqb_spec status 200) as [->|Hne]; [done |].
  by rewrite bool_decide_eq_false_2.
Qed.

Lemma validate_proxies_async_valid net (candidates : list string) :
  (filter (fun pr => pr.2 = true)
     (zip candidates (imap (fun i proxy => validate_proxy (net i) proxy) candidates).*1)).*1
  = valid_subset net candidates.
Proof.
  revert net. induction candidates as [|proxy rest IH]; intros net; [done |].
  rewrite imap_cons, fmap_cons. cbn [zip zip_with valid_subset].
  rewrite validate_proxy_verdict. cbn [fst].
  rewrite filter_cons. cbn [snd].
  specialize (IH (fun i => net (S i))).
  destruct (probe_ok (net 0%nat (probe_request proxy))).
  - rewrite decide_True by done. rewrite fmap_cons. cbn [fst]. f_equal. exact IH.
  - rewrite decide_False by done. exact IH.
Qed.

Lemma validate_proxies_async_requests net (candidates : list string) :
  concat (imap (fun i proxy => validate_proxy (net i) proxy) candidates).*2
  = probe_request <$> candidates.
Proof.
  revert net. induction candidates as [|proxy rest IH]; intros net; [done |].
  rewrite imap_cons, !fmap_cons. cbn [concat].
  rewrite validate_proxy_verdict. cbn [snd app]. f_equal.
  apply (IH (fun i => net (S i))).
Qed.

(** C7. Validating a candidate issues exactly one request, the probe: a GET
    through that proxy with a timeout of 10; the verdict is [True] exactly
    when the probe is answered by status 200, and [False] for any other
    status and for any exception, with no second request.
    [validate_proxies_async] issues one probe per candidate and returns, and
    stores, exactly the valid candidates in their order; for two candidates
    whose probes return 200 and time out it returns the first alone. *)
Theorem validate_returns_valid_subset (self : StressTester)
    (net : nat -> request -> http_result) (get : request -> http_result) (proxy : string) :
  ((validate_proxy get proxy).2 = [probe_request proxy] /\
   req_method (probe_request proxy) = "GET"%string /\
   req_timeout (probe_request proxy) = 10 /\
   req_proxy (probe_request proxy) = Some proxy) /\
  ((validate_proxy get proxy).1 = true <-> get (probe_request proxy) = Response 200) /\
  (validate_proxies_async self net).1.2 = valid_subset net (proxies self) /\
  proxies (validate_proxies_async self net).1.1 = valid_subset net (proxies self) /\
  (validate_proxies_async self net).2 = probe_request <$> proxies self /\
  (forall P_ok P_bad,
     proxies self = [P_ok; P_bad] ->
     net 0%nat (probe_request P_ok) = Response 200 ->
     net 1%nat (probe_request P_bad) = Raise TimeoutError ->
     (validate_proxies_async self net).1.2 = [P_ok]).
Proof.
  assert ((validate_proxies_async self net).1.2 = valid_subset net (proxies self)) as Hv
    by apply validate_proxies_async_valid.
  split; [| split; [| split; [| split; [| split]]]].
  - rewrite validate_proxy_verdict. by repeat split.
  - rewrite validate_proxy_verdict. simpl.
    destruct (get (probe_request proxy)) as [status|e]; simpl.
    + rewrite bool_decide_eq_true. split; [by intros -> | by intros [= ->]].
    + split; done.
  - exact Hv.
  - exact Hv.
  - apply validate_proxies_async_requests.
  - intros P_ok P_bad Hp H0 H1. rewrite Hv, Hp. simpl. by rewrite H0, H1.
Qed.

Lemma validate_returns_valid_subset_witness :
  let self := __init__ "http://127.0.0.1:8080/" 10 2 5 "GET" ""
                       ["http://10.0.0.1:3128"; "http://10.0.0.2:3128"]%string true in
  let net := fun (i : nat) (_ : request) =>
               match i with O => Response 200 | _ => Raise TimeoutError end in
  proxies self = ["http://10.0.0.1:3128"; "http://10.0.0.2:3128"]%string /\
  net 0%nat (probe_request "http://10.0.0.1:3128") = Response 200 /\
  net 1%nat (probe_request "http://10.0.0.2:3128") = Raise TimeoutError /\
  (validate_proxies_async self net).1.2 = ["http://10.0.0.1:3128"%string] /\
  length (validate_proxies_async self net).2 = 2%nat.
Proof.
  intros self net. split; [reflexivity |]. split; [reflexivity |]. split; [reflexivity |].
  split; [| reflexivity].
  exact (proj2 (proj2 (proj2 (proj2 (proj2
           (validate_returns_valid_subset self net (net 0%nat) "http://10.0.0.1:3128")))))
           "http://10.0.0.1:3128"%string "http://10.0.0.2:3128"%string
           eq_refl eq_refl eq_refl).
Defined.

(** ** Resolution of the settings *)

(** A flag left off the command line reaches [main] as its [argparse]
    default; when that default is true in Python's sense the [or] never
    looks at the configuration file. *)
Lemma absent_flag_hides_config cli args config :
  parse_args cli = Some args ->
  (Cli.threads cli = None -> r_threads (main_resolve args config) = Py.Int 100) /\
  (Cli.requests cli = None -> r_requests_per_thread (main_resolve args config) = Py.Int 1000) /\
  (Cli.timeout cli = None -> r_timeout (main_resolve args config) = Py.Int 5) /\
  (Cli.method cli = None -> r_method (main_resolve args config) = Py.Str "GET") /\
  (Cli.log_file cli = None ->
     r_log_file (main_resolve args config) = Py.Str "stress_test.log").
Proof.
  unfold parse_args. destruct (Cli.url cli) as [u|]; [| done].
  destruct (_ || _); [| done]. intros [= <-].
  repeat split; intros ->; reflexivity.
Qed.

(** C8 (the code departs from the claim). With [threads] only in the
    configuration file, the resolved value is the [argparse] default 100 and
    not the file's 50; a key whose default is false in Python's sense
    ([data]) does take the file's value.  And a value given on the command
    line that is false in Python's sense ([-t 0]) is replaced by the
    file's. *)
Theorem config_file_value_ignored :
  let fs := fun path : string =>
    if bool_decide (path = "config.json"%string)
    then Some (<["threads"%string := Py.Int 50]> (<["data"%string := Py.Str "x=1"]> ∅))
    else None in
  let cli := Cli.mk (Some "http://127.0.0.1:8080/"%string) None None None None None None None
                    (Some "config.json"%string) false in
  let cli0 := Cli.mk (Some "http://127.0.0.1:8080/"%string) (Some 0) None None None None None
                     None (Some "config.json"%string) false in
  (exists args, parse_args cli = Some args /\
     Py.get (main_config fs args) "threads" Py.None_ = Py.Int 50 /\
     r_threads (main_resolve args (main_config fs args)) = Py.Int 100 /\
     r_data (main_resolve args (main_config fs args)) = Py.Str "x=1") /\
  (exists args, parse_args cli0 = Some args /\
     r_threads (main_resolve args (main_config fs args)) = Py.Int 50).
Proof.
  intros fs cli cli0. split.
  - eexists. split; [reflexivity |]. by vm_compute.
  - eexists. split; [reflexivity |]. by vm_compute.
Qed.

(** ** The early return of [main] *)

(** A command line without the positional [url] never gets past
    [parse_args]. *)
Lemma missing_positional_url_exits cli fs net schedule :
  Cli.url cli = None -> main cli fs net schedule = Some UsageError.
Proof. intros Hu. unfold main, parse_args. by rewrite Hu. Qed.

(** C9. When resolution yields no target URL (an empty [url] argument and
    no usable [url] in the configuration file), [main] logs the error and
    returns before a tester exists: whatever the network and the event loop
    would do, the result is the early return, with no request issued and no
    outcome recorded. *)
Theorem missing_url_aborts (cli : Cli.t) (fs : string -> option (gmap string Py.val))
    (args : Args.t) :
  parse_args cli = Some args ->
  Py.truthy (r_url (main_resolve args (main_config fs args))) = false ->
  exists logged, forall net schedule,
    main cli fs net schedule = Some (Aborted logged) /\
    requests_of (Aborted logged) = [] /\
    outcomes_of (Aborted logged) = 0.
Proof.
  intros Hp Hu. eexists. intros net schedule.
  unfold main. rewrite Hp. cbv zeta. rewrite Hu. simpl. by repeat split.
Qed.

Lemma missing_url_aborts_witness :
  let fs := fun path : string =>
    if bool_decide (path = "config.json"%string)
    then Some (<["threads"%string := Py.Int 50]> ∅)
    else None in
  let cli := Cli.mk (Some ""%string) None None None None None None None
                    (Some "config.json"%string) false in
  exists args logged,
    parse_args cli = Some args /\
    Py.truthy (r_url (main_resolve args (main_config fs args))) = false /\
    main cli fs (fun _ _ => Response 200) [Enter 0 0 0 1] = Some (Aborted logged).
Proof.
  intros fs cli.
  destruct (parse_args cli) as [args|] eqn:Hp; [| by vm_compute in Hp].
  assert (Py.truthy (r_url (main_resolve args (main_config fs args))) = false) as Hu
    by (vm_compute in Hp; simplify_eq; by vm_compute).
  destruct (missing_url_aborts cli fs args Hp Hu) as [logged Hm].
  exists args, logged. split; [reflexivity |]. split; [exact Hu |].
  exact (proj1 (Hm (fun _ _ => Response 200) [Enter 0 0 0 1])).
Defined.

(** ** The report *)

(** C10. The report derives the failed count by subtraction,
    [total_requests] minus the sum of the status-code counts, without reading
    the error histogram; so successful plus failed is [total_requests] for
    every state of the statistics.  A run exists in which the derived count
    differs from the sum of the error counts: with a negative number of
    requests per thread no task is created, the error histogram is empty and
    the report shows [-5] failed requests. *)
Theorem report_failed_by_subtraction :
  (forall self : StressTester,
     rep_successful (report self) = Py.sum (Py.values (status_codes (stats self))) /\
     rep_failed (report self) =
       total_requests self - Py.sum (Py.values (status_codes (stats self))) /\
     rep_successful (report self) + rep_failed (report self) = total_requests self /\
     rep_total_requests (report self) = total_requests self) /\
  (forall self st st', status_codes st = status_codes st' ->
     rep_failed (report (set_stats self st (latencies self))) =
     rep_failed (report (set_stats self st' (latencies self)))) /\
  (let cli := Cli.mk (Some "http://127.0.0.1:8080/"%string) (Some 1) (Some (-5)) None None
                     None None None None false in
   exists log_file L rep,
     main cli (fun _ => None) (fun _ _ => Response 200) [] = Some (Completed log_file L rep) /\
     rep_successful rep = 0 /\ rep_failed rep = -5 /\ rep_total_requests rep = -5 /\
     Py.sum (Py.values (errors (stats (tester L)))) = 0).
Proof.
  split; [| split].
  - intros self. unfold report; simpl. repeat split; lia.
  - intros self st st' Hs. unfold report; simpl. by rewrite Hs.
  - intros cli. do 3 eexists. split; [by vm_compute |]. by vm_compute.
Qed.

(** * Further properties of the code *)

(** ** Percentiles and the latency lines of the report *)








(** A negative percentile gives a negative index, which counts from the
    back; past the front of the list it raises [IndexError]. *)
Example percentile_negative :
  _percentile [30; 10; 50] (-50) = Some 50 /\ _percentile [30; 10; 50] (-200) = None.
Proof. by vm_compute. Qed.




(** ** The dispatch phase, one resumption at a time *)

Lemma same_settings_refl a : same_settings a a.
Proof. by repeat split. Qed.

Lemma same_settings_trans a b c : same_settings a b -> same_settings b c -> same_settings a c.
Proof. unfold same_settings. intros H1 H2. destruct_and!. repeat split; congruence. Qed.

Lemma send_request_resume_settings self start_time now r :
  same_settings (send_request_resume self start_time now r).1 self.
Proof.
  destruct r as [status|e]; simpl; [by repeat split |].
  destruct (isinstance_TimeoutError e); [| destruct (isinstance_ClientConnectorError e)];
    by repeat split.
Qed.

Lemma send_request_issue_settings a b ua px :
  same_settings a b -> send_request_issue a ua px = send_request_issue b ua px.
Proof.
  unfold same_settings, send_request_issue. intros H. destruct_and!.
  by repeat match goal with H : _ = _ |- _ => rewrite H; clear H end.
Qed.

(** With no task asleep, a resumption either admits a queued task, which
    issues its request, or hands a waiting task the answer to its request,
    which finishes it. *)
Lemma step_shape ev L L' :
  step ev L = Some L' -> count is_sleeping (tasks L) = 0 ->
  (exists i ua px now,
     ev = Enter i ua px now /\ tasks L !! i = Some Queued /\ 0 < sem L /\
     tasks L' = <[i := Trying 1 now]> (tasks L) /\
     sent L' = sent L ++ [send_request_issue (tester L) ua px] /\
     tester L' = tester L) \/
  (exists i r now k start_time,
     ev = Reply i r now /\ tasks L !! i = Some (Trying k start_time) /\
     tasks L' = <[i := Finished None]> (tasks L) /\
     sent L' = sent L /\
     tester L' = (send_request_resume (tester L) start_time now r).1).
Proof.
  destruct ev as [i ua px now | i r now | i ua px now]; intros Hs Hz.
  - left. simpl in Hs. destruct (tasks L !! i) as [[| | |]|] eqn:Hi; try done.
    destruct (Z.ltb_spec 0 (sem L)); [| done]. simplify_eq.
    exists i, ua, px, now. by repeat split.
  - right. destruct (tasks L !! i) as [[|k t0| |]|] eqn:Hi;
      try (simpl in Hs; by rewrite Hi in Hs).
    rewrite (step_Reply _ _ _ _ _ _ Hi) in Hs. simplify_eq.
    exists i, r, now, k, t0. by repeat split.
  - exfalso. simpl in Hs. destruct (tasks L !! i) as [[| |k|]|] eqn:Hi; try done.
    pose proof (count_insert is_sleeping _ _ _ Queued Hi) as Hc.
    pose proof (count_nonneg is_sleeping (<[i := Queued]> (tasks L))).
    simpl in Hc. lia.
Qed.

(** Induction over the states a run passes through. *)
Lemma exec_invariant (P : Loop -> Prop) schedule L0 L :
  count is_sleeping (tasks L0) = 0 -> P L0 ->
  (forall L1 ev L2,
     count is_sleeping (tasks L1) = 0 -> P L1 -> step ev L1 = Some L2 -> P L2) ->
  exec schedule L0 = Some L -> P L.
Proof.
  intros Hz H0 Hstep. revert L0 Hz H0.
  induction schedule as [|ev schedule IH]; intros L0 Hz H0 He; simpl in He.
  - by simplify_eq.
  - destruct (step ev L0) as [L1|] eqn:Hs; [| done].
    destruct (step_never_sleeps _ _ _ Hs Hz) as [_ Hz1].
    eapply (IH L1); eauto.
Qed.

Lemma run_start_awake self net L0 :
  run_start self net = Some L0 -> count is_sleeping (tasks L0) = 0.
Proof.
  intros H0. destruct (run_start_inv _ _ _ H0) as (_ & _ & Ht & _).
  by rewrite Ht, count_replicate.
Qed.

Lemma run_start_tester self net L0 :
  run_start self net = Some L0 ->
  let validating := validate_proxies self && Py.truthy (Py.List (Py.Str <$> proxies self)) in
  tester L0 =
    (if validating then set_proxies self (valid_subset net (proxies self)) else self) /\
  sent L0 = (if validating then probe_request <$> proxies self else []).
Proof.
  intros H0 validating. unfold run_start in H0. fold validating in H0.
  destruct validating.
  - unfold validate_proxies_async in H0. simpl in H0.
    destruct (concurrency self <? 0); [done |]. simplify_eq. simpl.
    rewrite validate_proxies_async_valid. split; [done |].
    apply validate_proxies_async_requests.
  - destruct (concurrency self <? 0); [done |]. by simplify_eq.
Qed.

(** What holds of every state a run passes through. *)
Lemma dispatch_inv self net L0 schedule L :
  run_start self net = Some L0 -> exec schedule L0 = Some L ->
  same_settings (tester L) (tester L0) /\
  count has_raised (tasks L) = 0 /\
  exists reqs,
    sent L = sent L0 ++ reqs /\
    Z.of_nat (length reqs) = count admitted (tasks L) /\
    Forall (fun r => exists ua px, r = send_request_issue (tester L0) ua px) reqs.
Proof.
  intros H0 He. destruct (run_start_inv _ _ _ H0) as (_ & _ & Ht & _).
  pattern L. eapply exec_invariant; [| | | exact He].
  - by eapply run_start_awake.
  - split; [apply same_settings_refl |]. split; [by rewrite Ht, count_replicate |].
    exists []. rewrite app_nil_r, Ht, count_replicate by done. by repeat split.
  - intros L1 ev L2 Hz (Hset & Hr & reqs & Hsent & Hlen & Hall) Hs.
    destruct (step_shape _ _ _ Hs Hz)
      as [(i & ua & px & now & -> & Hi & _ & Ht2 & Hs2 & Hte)
         |(i & r & now & k & t0 & -> & Hi & Ht2 & Hs2 & Hte)].
    + rewrite Hte, Ht2, Hs2, Hsent. split; [done |].
      rewrite !(count_insert _ _ _ _ _ Hi). simpl. split; [lia |].
      exists (reqs ++ [send_request_issue (tester L1) ua px]).
      rewrite app_assoc, length_app, Forall_app. simpl. repeat split; [lia | done |].
      apply Forall_singleton. exists ua, px. by apply send_request_issue_settings.
    + rewrite Hte, Ht2, Hs2. split.
      { eapply same_settings_trans; [apply send_request_resume_settings | done]. }
      rewrite !(count_insert _ _ _ _ _ Hi). simpl. split; [lia |].
      exists reqs. repeat split; [done | lia | done].
Qed.

Lemma dispatched_eq L0 L reqs : sent L = sent L0 ++ reqs -> dispatched L0 L = reqs.
Proof. intros Hs. unfold dispatched. rewrite Hs. apply drop_app_length. Qed.





(** ** What the dispatched requests look like *)

Lemma choice_elem {A} (d : A) (seq : list A) (r : nat) : seq <> [] -> Py.choice d seq r ∈ seq.
Proof.
  intros Hne. unfold Py.choice. apply list_elem_of_In, nth_In.
  apply Nat.mod_upper_bound. destruct seq; simpl; [done | lia].
Qed.

Lemma probe_ok_200 r : probe_ok r = true <-> r = Response 200.
Proof.
  destruct r as [status|e]; simpl; [| by split].
  rewrite bool_decide_eq_true. split; [by intros -> | by intros [= ->]].
Qed.

Lemma valid_subset_sublist net (candidates : list string) :
  valid_subset net candidates `sublist_of` candidates.
Proof.
  revert net. induction candidates as [|p ps IH]; intros net; simpl; [constructor |].
  destruct (probe_ok _); [apply sublist_skip | apply sublist_cons]; apply IH.
Qed.

Lemma valid_subset_elem net (candidates : list string) (p : string) :
  p ∈ valid_subset net candidates <->
  exists i : nat, candidates !! i = Some p /\ net i (probe_request p) = Response 200.
Proof.
  revert net. induction candidates as [|q ps IH]; intros net; simpl.
  - split; [by intros ?%elem_of_nil | by intros (i & ? & _)].
  - destruct (probe_ok (net 0%nat (probe_request q))) eqn:Hq.
    + rewrite elem_of_cons, IH. split.
      * intros [->|(i & Hi & Hn)]; [exists 0%nat; by rewrite <- probe_ok_200 | by exists (S i)].
      * intros ([|i] & Hi & Hn); simplify_eq/=; [by left | right; by exists i].
    + rewrite IH. split.
      * intros (i & Hi & Hn). by exists (S i).
      * intros ([|i] & Hi & Hn); simplify_eq/=; [| by exists i].
        apply probe_ok_200 in Hn. congruence.
Qed.

Lemma proxies_truthy (ps : list string) :
  Py.truthy (Py.List (Py.Str <$> ps)) = false <-> ps = [].
Proof. by destruct ps. Qed.

Lemma send_request_issue_proxy self ua px :
  match req_proxy (send_request_issue self ua px) with
  | None => True
  | Some p => p <> ""%string /\ p ∈ proxies self
  end.
Proof.
  unfold send_request_issue. simpl. destruct (proxies self) as [|q ps] eqn:E; [done |].
  simpl. destruct (String.eqb_spec (Py.choice ""%string (q :: ps) px) ""); simpl; [done |].
  split; [done |]. by apply choice_elem.
Qed.

(** X4. Every request of the dispatch phase goes to the configured URL
    with the configured method and timeout and a user agent drawn from
    [USER_AGENTS]; the body [data] is attached for POST and for no other
    method. *)
Theorem dispatched_requests_follow_settings (self : StressTester)
    (net : nat -> request -> http_result) (L0 : Loop) (schedule : list event) (L : Loop) :
  run_start self net = Some L0 -> exec schedule L0 = Some L ->
  Forall (fun r =>
            req_url r = url self /\ req_method r = method self /\
            req_timeout r = timeout self /\
            req_data r =
              (if bool_decide (method self = "POST"%string) then Some (data self) else None) /\
            exists agent, req_headers r = [("User-Agent"%string, agent)] /\ agent ∈ USER_AGENTS)
         (dispatched L0 L).
Proof.
  intros H0 He.
  destruct (dispatch_inv _ _ _ _ _ H0 He) as (_ & _ & reqs & Hs & _ & Hall).
  rewrite (dispatched_eq _ _ _ Hs).
  destruct (run_start_tester _ _ _ H0) as [Ht _].
  assert (same_settings (set_proxies (tester L0) (proxies self)) self) as Hset.
  { rewrite Ht. destruct (_ && _); destruct self; by repeat split. }
  eapply Forall_impl; [exact Hall |]. intros r (ua & px & ->).
  destruct Hset as (Hu & _ & _ & Hti & Hm & Hd & _). simpl in *.
  unfold send_request_issue; simpl. rewrite Hu, Hti, Hm, Hd.
  repeat split; try done.
  eexists. split; [done |]. by apply choice_elem.
Qed.

Lemma dispatched_requests_follow_settings_witness :
  let self := __init__ "http://127.0.0.1:8080/" 2 2 5 "post" "x=1" [] false in
  let net := fun (_ : nat) (_ : request) => Response 200 in
  let schedule := [Enter 1 6 0 10; Enter 0 3 0 15] in
  exists L0 L,
    run_start self net = Some L0 /\ exec schedule L0 = Some L /\
    (req_data <$> dispatched L0 L) = [Some "x=1"%string; Some "x=1"%string] /\
    Forall (fun r => req_method r = "POST"%string) (dispatched L0 L).
Proof.
  intros self net schedule.
  destruct (run_start self net) as [L0|] eqn:H0; [| by vm_compute in H0].
  destruct (exec schedule L0) as [L|] eqn:He;
    [| vm_compute in H0; simplify_eq; by vm_compute in He].
  exists L0, L. split; [done |]. split; [done |].
  split; [vm_compute in H0; simplify_eq; vm_compute in He; by simplify_eq |].
  eapply Forall_impl; [exact (dispatched_requests_follow_settings self net L0 schedule L H0 He) |].
  by intros r (_ & -> & _).
Defined.

(** X5. A dispatched request goes through no proxy or through one of the
    candidates, never through the empty string; after validation only
    through a candidate whose probe was answered by HTTP 200.  When no
    candidate passes validation the run goes on without proxies. *)
Theorem only_validated_proxies (self : StressTester)
    (net : nat -> request -> http_result) (L0 : Loop) (schedule : list event) (L : Loop) :
  run_start self net = Some L0 -> exec schedule L0 = Some L ->
  Forall (fun r =>
            match req_proxy r with
            | None => True
            | Some p =>
                p <> ""%string /\ p ∈ proxies self /\
                (validate_proxies self = true ->
                 exists i : nat, proxies self !! i = Some p /\
                                 net i (probe_request p) = Response 200)
            end) (dispatched L0 L) /\
  (validate_proxies self = true -> valid_subset net (proxies self) = [] ->
   Forall (fun r => req_proxy r = None) (dispatched L0 L)).
Proof.
  intros H0 He.
  destruct (dispatch_inv _ _ _ _ _ H0 He) as (_ & _ & reqs & Hs & _ & Hall).
  rewrite (dispatched_eq _ _ _ Hs).
  destruct (run_start_tester _ _ _ H0) as [Ht _]. cbv zeta in Ht.
  split.
  - eapply Forall_impl; [exact Hall |]. intros r (ua & px & ->).
    pose proof (send_request_issue_proxy (tester L0) ua px) as Hp.
    destruct (req_proxy _) as [p|]; [| done]. destruct Hp as [Hne Hin].
    split; [done |]. rewrite Ht in Hin.
    destruct (validate_proxies self) eqn:Hv; cbn [andb] in Hin; [| by split].
    destruct (Py.truthy (Py.List (Py.Str <$> proxies self))) eqn:Htr.
    + simpl in Hin. split; [by eapply elem_of_sublist; [| apply valid_subset_sublist] |].
      intros _. by apply valid_subset_elem.
    + apply proxies_truthy in Htr. rewrite Htr in Hin. by apply elem_of_nil in Hin.
  - intros Hv Hnone. eapply Forall_impl; [exact Hall |]. intros r (ua & px & ->).
    rewrite Ht, Hv. cbn [andb].
    destruct (Py.truthy (Py.List (Py.Str <$> proxies self))) eqn:Htr.
    + unfold send_request_issue. simpl. by rewrite Hnone.
    + apply proxies_truthy in Htr. unfold send_request_issue. simpl. by rewrite Htr.
Qed.

Lemma only_validated_proxies_witness :
  let self := __init__ "http://127.0.0.1:8080/" 1 1 5 "GET" ""
                       ["http://10.0.0.1:3128"; "http://10.0.0.2:3128"]%string true in
  let net := fun (_ : nat) (_ : request) => Raise TimeoutError in
  let schedule := [Enter 0 0 1 10] in
  exists L0 L,
    run_start self net = Some L0 /\ exec schedule L0 = Some L /\
    validate_proxies self = true /\ valid_subset net (proxies self) = [] /\
    length (sent L0) = 2%nat /\
    Forall (fun r => req_proxy r = None) (dispatched L0 L) /\
    length (dispatched L0 L) = 1%nat.
Proof.
  intros self net schedule.
  destruct (run_start self net) as [L0|] eqn:H0; [| by vm_compute in H0].
  destruct (exec schedule L0) as [L|] eqn:He;
    [| vm_compute in H0; simplify_eq; by vm_compute in He].
  exists L0, L. split; [done |]. split; [done |]. split; [done |]. split; [done |].
  split; [vm_compute in H0; by simplify_eq |].
  split; [exact (proj2 (only_validated_proxies self net L0 schedule L H0 He) eq_refl eq_refl) |].
  vm_compute in H0; simplify_eq; vm_compute in He; by simplify_eq.
Defined.

(** X6. The candidates that survive validation are a sub-sequence of the
    candidates, in their order: a candidate survives exactly when the probe
    at its position was answered by HTTP 200, and when every probe is, the
    list is unchanged. *)
Theorem validation_keeps_a_subsequence (self : StressTester)
    (net : nat -> request -> http_result) :
  (validate_proxies_async self net).1.2 `sublist_of` proxies self /\
  (forall p, p ∈ (validate_proxies_async self net).1.2 <->
             exists i : nat, proxies self !! i = Some p /\
                             net i (probe_request p) = Response 200) /\
  ((forall (i : nat) p, proxies self !! i = Some p ->
                        net i (probe_request p) = Response 200) ->
   (validate_proxies_async self net).1.2 = proxies self).
Proof.
  assert ((validate_proxies_async self net).1.2 = valid_subset net (proxies self)) as ->
    by apply validate_proxies_async_valid.
  split; [apply valid_subset_sublist |]. split; [intros p; apply valid_subset_elem |].
  generalize (proxies self). clear self. intros ps. revert net.
  induction ps as [|q ps IH]; intros net Hall; simpl; [done |].
  rewrite (proj2 (probe_ok_200 _) (Hall 0%nat q eq_refl)). f_equal.
  apply IH. intros i p Hi. by apply (Hall (S i)).
Qed.

Lemma validation_keeps_a_subsequence_witness :
  let self := __init__ "http://127.0.0.1:8080/" 10 2 5 "GET" ""
                       ["http://10.0.0.1:3128"; "http://10.0.0.2:3128"]%string true in
  let net := fun (_ : nat) (_ : request) => Response 200 in
  (forall (i : nat) p, proxies self !! i = Some p ->
                       net i (probe_request p) = Response 200) /\
  (validate_proxies_async self net).1.2 =
    ["http://10.0.0.1:3128"; "http://10.0.0.2:3128"]%string.
Proof.
  intros self net. split; [done |].
  exact (proj2 (proj2 (validation_keeps_a_subsequence self net)) (fun _ _ _ => eq_refl)).
Defined.

(** ** Outcomes *)

(** X7. When the request of a task raises, whatever the exception, the
    task finishes normally and one failure is recorded: under ["Timeout"] for
    a timeout, under the text of the exception otherwise.  No other error
    count changes, and the status codes, the latencies, the requests sent and
    the sleeps are as before. *)
Theorem exception_is_failure (L : Loop) (i attempt_number : nat)
    (start_time now : Z) (e : exn) :
  tasks L !! i = Some (Trying attempt_number start_time) ->
  let key := if isinstance_TimeoutError e then "Timeout"%string else str e in
  exists L',
    step (Reply i (Raise e) now) L = Some L' /\
    tasks L' = <[i := Finished None]> (tasks L) /\
    Py.item (errors (stats (tester L'))) key = Py.item (errors (stats (tester L))) key + 1 /\
    (forall other, other <> key ->
       Py.item (errors (stats (tester L'))) other = Py.item (errors (stats (tester L))) other) /\
    status_codes (stats (tester L')) = status_codes (stats (tester L)) /\
    latencies (tester L') = latencies (tester L) /\
    sent L' = sent L /\ slept L' = slept L.
Proof.
  intros Hi key. eexists. split; [by apply step_Reply with (1 := Hi) |]. subst key. simpl.
  destruct (isinstance_TimeoutError e); [| destruct (isinstance_ClientConnectorError e)];
    simpl; (repeat split; try done; [apply item_incr_eq | intros o Ho; by apply item_incr_ne]).
Qed.

Lemma exception_is_failure_witness :
  let self := __init__ "http://127.0.0.1:8080/" 1 1 5 "GET" "" [] false in
  let L :=
    {| tester := self; sem := 0; tasks := [Trying 1 100]; sent := []; slept := [] |} in
  tasks L !! 0%nat = Some (Trying 1 100) /\
  exists L',
    step (Reply 0 (Raise (ClientConnectorError "Cannot connect to host")) 130) L = Some L' /\
    tasks L' = [Finished None] /\
    errors (stats (tester L')) = [("Cannot connect to host"%string, 1)] /\
    latencies (tester L') = [].
Proof.
  intros self L. split; [reflexivity |].
  destruct (exception_is_failure L 0 1 100 130
              (ClientConnectorError "Cannot connect to host") eq_refl)
    as (L' & Hs & Ht & _ & _ & _ & Hl & _).
  exists L'. split; [exact Hs |]. split; [exact Ht |].
  split; [vm_compute in Hs; by simplify_eq | exact Hl].
Defined.

Lemma count_zero_Forall (p : task -> bool) (l : list task) :
  count p l = 0 -> Forall (fun t => p t = false) l.
Proof.
  induction l as [|t l IH]; simpl; [constructor |].
  pose proof (count_nonneg p l). destruct (p t) eqn:Ht; [lia |].
  intros Hc. constructor; [done | by apply IH].
Qed.

Lemma no_task_raises_aux self net schedule L :
  run self net schedule = Some L ->
  tasks L = replicate (Z.to_nat (total_requests self)) (Finished None).
Proof.
  unfold run. intros Hr.
  destruct (run_start self net) as [L0|] eqn:H0; [| done].
  destruct (exec schedule L0) as [L1|] eqn:He; [| done].
  destruct (all_finished L1) eqn:Hf; [| done]. simplify_eq.
  destruct (dispatch_inv _ _ _ _ _ H0 He) as (_ & Hr & _).
  destruct (run_start_inv _ _ _ H0) as (_ & _ & Ht & _).
  destruct (exec_inv _ _ _ He) as (_ & _ & _ & _ & Hlen & _).
  rewrite Ht, length_replicate in Hlen.
  symmetry. apply replicate_as_Forall. split; [done |].
  apply count_zero_Forall in Hr. unfold all_finished in Hf.
  rewrite forallb_forall in Hf. rewrite Forall_forall in Hr. apply Forall_forall.
  intros t Ht'. specialize (Hr t Ht'). specialize (Hf t (proj1 (list_elem_of_In _ _) Ht')).
  by destruct t as [| | |[e|]].
Qed.

(** X8. No task ever ends with an exception: in every state of a run no
    finished task holds one, and when [run] returns every task has returned
    normally, so [gather] collects no exception. *)
Theorem no_task_raises (self : StressTester) (net : nat -> request -> http_result)
    (schedule : list event) (L : Loop) :
  (forall L0, run_start self net = Some L0 -> exec schedule L0 = Some L ->
              count has_raised (tasks L) = 0) /\
  (run self net schedule = Some L ->
   tasks L = replicate (Z.to_nat (total_requests self)) (Finished None)).
Proof.
  split; [| apply no_task_raises_aux].
  intros L0 H0 He. by destruct (dispatch_inv _ _ _ _ _ H0 He) as (_ & Hr & _).
Qed.

Lemma no_task_raises_witness :
  let self := __init__ "http://127.0.0.1:8080/" 2 1 5 "GET" "" [] false in
  let net := fun (_ : nat) (_ : request) => Response 200 in
  let schedule :=
    [Enter 1 0 0 10; Reply 1 (Raise (OtherException "boom")) 14;
     Enter 0 3 0 15; Reply 0 (Raise (ClientError "reset")) 20] in
  exists L, run self net schedule = Some L /\ tasks L = [Finished None; Finished None].
Proof.
  intros self net schedule.
  destruct (run self net schedule) as [L|] eqn:Hr; [| by vm_compute in Hr].
  exists L. split; [done |]. exact (proj2 (no_task_raises self net schedule L) Hr).
Defined.

Lemma send_request_resume_latencies self start_time now r :
  let self' := (send_request_resume self start_time now r).1 in
  Z.of_nat (length (latencies self')) - Py.sum (Py.values (status_codes (stats self'))) =
  Z.of_nat (length (latencies self)) - Py.sum (Py.values (status_codes (stats self))).
Proof.
  destruct r as [status|e]; simpl.
  - rewrite length_app, sum_values_incr. simpl. lia.
  - destruct (isinstance_TimeoutError e); [| destruct (isinstance_ClientConnectorError e)]; done.
Qed.

Lemma complete_run_outcomes self net L0 schedule L :
  run_start self net = Some L0 -> exec schedule L0 = Some L -> all_finished L = true ->
  outcomes (tester L) = outcomes self + Z.of_nat (Z.to_nat (total_requests self)).
Proof.
  intros H0 He Hf. unfold all_finished in Hf.
  destruct (run_start_inv _ _ _ H0) as (_ & _ & Ht & Hst & _).
  destruct (exec_inv _ _ _ He) as (_ & _ & Ho & _ & Hlen & _).
  rewrite (count_all _ _ Hf), Hlen, Ht, count_replicate, length_replicate in Ho by done.
  assert (outcomes (tester L0) = outcomes self) as Hos by (unfold outcomes; by rewrite Hst).
  lia.
Qed.

(** X9. In a run of a freshly constructed tester there is one latency per
    counted response at every moment, so the report's successful count is
    the number of latencies; and when [run] has returned for a non-negative
    [total_requests], the failed count the report derives by subtraction is
    the sum of the error counts. *)
Theorem report_counts_match (url : string) (total limit timeout : Z) (method data : string)
    (proxies : list string) (validate_proxies : bool) (net : nat -> request -> http_result)
    (L0 : Loop) (schedule : list event) (L : Loop) :
  let self := __init__ url total limit timeout method data proxies validate_proxies in
  run_start self net = Some L0 -> exec schedule L0 = Some L ->
  rep_successful (report (tester L)) = Z.of_nat (length (latencies (tester L))) /\
  rep_total_requests (report (tester L)) = total /\
  (all_finished L = true -> 0 <= total ->
   rep_failed (report (tester L)) = Py.sum (Py.values (errors (stats (tester L))))).
Proof.
  intros self H0 He.
  destruct (run_start_inv _ _ _ H0) as (_ & _ & _ & Hst & Hlat & _ & Htot & _).
  destruct (exec_inv _ _ _ He) as (_ & _ & _ & _ & _ & _ & Htot').
  assert (Z.of_nat (length (latencies (tester L))) =
          Py.sum (Py.values (status_codes (stats (tester L))))) as Hl.
  { pattern L. eapply exec_invariant; [| | | exact He].
    - by eapply run_start_awake.
    - by rewrite Hst, Hlat.
    - intros L1 ev L2 Hz HP Hs.
      destruct (step_shape _ _ _ Hs Hz)
        as [(i & ua & px & now & -> & _ & _ & _ & _ & ->)
           |(i & r & now & k & t0 & -> & _ & _ & _ & ->)]; [done |].
      pose proof (send_request_resume_latencies (tester L1) t0 now r) as Hr. simpl in Hr. lia. }
  split; [by rewrite Hl |]. split; [simpl; by rewrite Htot', Htot |].
  intros Hf Hnn. pose proof (complete_run_outcomes _ _ _ _ _ H0 He Hf) as Ho.
  unfold outcomes in Ho. simpl in *. rewrite Htot', Htot. lia.
Qed.

Lemma report_counts_match_witness :
  let self := __init__ "http://127.0.0.1:8080/" 2 1 5 "GET" "" [] false in
  let net := fun (_ : nat) (_ : request) => Response 200 in
  let schedule :=
    [Enter 1 0 0 10; Reply 1 (Response 503) 14; Enter 0 3 0 15; Reply 0 (Raise TimeoutError) 20] in
  exists L0 L,
    run_start self net = Some L0 /\ exec schedule L0 = Some L /\
    all_finished L = true /\ 0 <= 2 /\
    rep_successful (report (tester L)) = 1 /\
    rep_failed (report (tester L)) = Py.sum (Py.values (errors (stats (tester L)))).
Proof.
  intros self net schedule.
  destruct (run_start self net) as [L0|] eqn:H0; [| by vm_compute in H0].
  destruct (exec schedule L0) as [L|] eqn:He;
    [| vm_compute in H0; simplify_eq; by vm_compute in He].
  assert (all_finished L = true) as Hf
    by (vm_compute in H0; simplify_eq; vm_compute in He; by simplify_eq).
  exists L0, L. split; [done |]. split; [done |]. split; [done |]. split; [lia |].
  split; [vm_compute in H0; simplify_eq; vm_compute in He; by simplify_eq |].
  exact (proj2 (proj2 (report_counts_match "http://127.0.0.1:8080/" 2 1 5 "GET" "" [] false
                         net L0 schedule L H0 He)) Hf ltac:(lia)).
Defined.

Lemma incr_timeout_histogram (n : Z) :
  0 <= n -> Py.incr (timeout_histogram n) "Timeout"%string = timeout_histogram (n + 1).
Proof.
  intros Hn. unfold timeout_histogram.
  destruct (Z.eqb_spec n 0) as [->|Hne]; [done |].
  destruct (Z.eqb_spec (n + 1) 0); [lia |]. reflexivity.
Qed.

(** X10. When every request of a run is answered by a timeout, the
    returned statistics hold no status code and no latency, and the error
    histogram is the single entry ["Timeout"] with count [total_requests]
    (empty when there was nothing to send). *)
Theorem all_timeouts (url : string) (total limit timeout : Z) (method data : string)
    (proxies : list string) (validate_proxies : bool) (net : nat -> request -> http_result)
    (schedule : list event) (L : Loop) :
  let self := __init__ url total limit timeout method data proxies validate_proxies in
  forallb timeout_reply schedule = true -> run self net schedule = Some L ->
  status_codes (stats (tester L)) = [] /\
  latencies (tester L) = [] /\
  errors (stats (tester L)) = timeout_histogram (Z.of_nat (Z.to_nat total)).
Proof.
  intros self Hto Hr. unfold run in Hr.
  destruct (run_start self net) as [L0|] eqn:H0; [| done].
  destruct (exec schedule L0) as [L1|] eqn:He; [| done].
  destruct (all_finished L1) eqn:Hf; [| done]. simplify_eq. unfold all_finished in Hf.
  destruct (run_start_inv _ _ _ H0) as (_ & _ & Ht & Hst & Hlat & _).
  destruct (exec_inv _ _ _ He) as (_ & _ & _ & _ & Hlen & _).
  rewrite Ht, length_replicate in Hlen. simpl in Hlen.
  rewrite <- Hlen, <- (count_all _ _ Hf).
  pose proof (run_start_awake _ _ _ H0) as Hz.
  assert (status_codes (stats (tester L0)) = [] /\
          latencies (tester L0) = [] /\
          errors (stats (tester L0)) = timeout_histogram (count is_finished (tasks L0))) as HQ
    by (by rewrite Hst, Hlat, Ht, count_replicate).
  clear H0 Ht Hst Hlat Hlen Hf. revert L0 He Hz HQ.
  induction schedule as [|ev schedule IH]; intros L0 He Hz HQ; simpl in He; [by simplify_eq |].
  apply andb_true_iff in Hto as [Hev Hto].
  destruct (step ev L0) as [L1|] eqn:Hs; [| done].
  destruct (step_never_sleeps _ _ _ Hs Hz) as [_ Hz1].
  apply (IH Hto L1 He Hz1). destruct HQ as (Hsc & Hl & Her).
  destruct (step_shape _ _ _ Hs Hz)
    as [(i & ua & px & now & -> & Hi & _ & Ht2 & _ & ->)
       |(i & r & now & k & t0 & -> & Hi & Ht2 & _ & ->)].
  - rewrite Ht2, (count_insert _ _ _ _ _ Hi). simpl. by rewrite Z.add_0_r, Z.sub_0_r.
  - rewrite Ht2, (count_insert _ _ _ _ _ Hi). simpl in Hev |- *.
    destruct r as [status|e]; [done |]. simpl. rewrite Hev. simpl.
    rewrite Hsc, Hl, Her. repeat split; try done.
    rewrite incr_timeout_histogram by apply count_nonneg. f_equal. unfold b2z. lia.
Qed.

Lemma all_timeouts_witness :
  let self := __init__ "http://127.0.0.1:8080/" 2 1 5 "GET" "" [] false in
  let net := fun (_ : nat) (_ : request) => Response 200 in
  let schedule :=
    [Enter 1 0 0 10; Reply 1 (Raise TimeoutError) 15;
     Enter 0 3 0 15; Reply 0 (Raise (ServerTimeoutError "read timeout")) 20] in
  exists L,
    forallb timeout_reply schedule = true /\ run self net schedule = Some L /\
    errors (stats (tester L)) = [("Timeout"%string, 2)] /\
    status_codes (stats (tester L)) = [].
Proof.
  intros self net schedule.
  destruct (run self net schedule) as [L|] eqn:Hr; [| by vm_compute in Hr].
  exists L. split; [done |]. split; [done |].
  destruct (all_timeouts "http://127.0.0.1:8080/" 2 1 5 "GET" "" [] false net schedule L
              eq_refl Hr) as (Hs & _ & He).
  split; [exact He | exact Hs].
Defined.

(** X11. A semaphore created with value 0 admits no task: with requests to
    send, no order of resumptions lets [run] return, and a negative value is
    refused when the semaphore is created. *)
Theorem no_room_no_return (self : StressTester) (net : nat -> request -> http_result)
    (schedule : list event) :
  concurrency self <= 0 -> 0 < total_requests self ->
  run self net schedule = None /\
  (concurrency self < 0 -> run_start self net = None) /\
  (concurrency self = 0 ->
   exists L0, run_start self net = Some L0 /\ forall ev, step ev L0 = None).
Proof.
  intros Hc Ht.
  assert (concurrency self < 0 -> run_start self net = None) as Hneg.
  { intros Hn. destruct (run_start self net) as [L0|] eqn:H0; [| done].
    destruct (run_start_inv _ _ _ H0) as (? & _). lia. }
  assert (concurrency self = 0 ->
          exists L0, run_start self net = Some L0 /\ forall ev, step ev L0 = None) as Hzero.
  { intros Hz. destruct (run_start_some self net ltac:(lia)) as [L0 H0].
    exists L0. split; [done |].
    destruct (run_start_inv _ _ _ H0) as (_ & Hsem & Htasks & _).
    intros [i ua px now | i r now | i ua px now]; simpl; rewrite Htasks;
      destruct (replicate _ Queued !! i) as [t|] eqn:Hi; try done;
      apply lookup_replicate in Hi as [-> _]; try done.
    destruct (Z.ltb_spec 0 (sem L0)); [lia | done]. }
  split; [| by split].
  destruct (Z.eq_dec (concurrency self) 0) as [Hz|Hnz].
  - destruct (Hzero Hz) as (L0 & H0 & Hstuck). unfold run. rewrite H0.
    destruct schedule as [|ev schedule]; simpl; [| by rewrite Hstuck].
    destruct (run_start_inv _ _ _ H0) as (_ & _ & Htasks & _).
    unfold all_finished. rewrite Htasks.
    destruct (Z.to_nat (total_requests self)) as [|n] eqn:En; [lia | done].
  - unfold run. by rewrite Hneg by lia.
Qed.

Lemma no_room_no_return_witness :
  let self := __init__ "http://127.0.0.1:8080/" 3 0 5 "GET" "" [] false in
  let net := fun (_ : nat) (_ : request) => Response 200 in
  concurrency self <= 0 /\ 0 < total_requests self /\
  run self net [Enter 0 0 0 1; Reply 0 (Response 200) 2] = None.
Proof.
  intros self net. split; [done |]. split; [done |].
  exact (proj1 (no_room_no_return self net [Enter 0 0 0 1; Reply 0 (Response 200) 2]
                  ltac:(done) ltac:(done))).
Defined.

(** ** The breakdown lines of the report *)

#[local] Instance item_le_total : Total item_le.
Proof. intros [a1 a2] [b1 b2]. unfold item_le. simpl. lia. Qed.

#[local] Instance item_le_trans : Transitive item_le.
Proof. intros [a1 a2] [b1 b2] [c1 c2]. unfold item_le. simpl. lia. Qed.





Example report_breakdowns :
  let self := set_stats (__init__ "http://127.0.0.1:8080/" 9 1 5 "GET" "" [] false)
                {| status_codes := [(503, 1); (200, 2)];
                   errors := [("reset"%string, 2); ("Timeout"%string, 4);
                              ("refused"%string, 2)] |} [] in
  rep_status_codes (report self) = [(200, 2); (503, 1)] /\
  rep_errors (report self) = [("Timeout"%string, 4); ("reset"%string, 2); ("refused"%string, 2)].
Proof. by vm_compute. Qed.







(** ** [main] from the command line to the report *)









(** X17. Validation comes before dispatch and only then: with
    [validate_proxies] set and at least one candidate, one probe per
    candidate is sent before any task runs and the tester keeps exactly the
    valid candidates; otherwise no probe is sent and the candidates stay.
    Either way the proxies do not change while the tasks run. *)
Theorem validation_precedes_dispatch (self : StressTester)
    (net : nat -> request -> http_result) (L0 : Loop) (schedule : list event) (L : Loop) :
  run_start self net = Some L0 -> exec schedule L0 = Some L ->
  proxies (tester L) = proxies (tester L0) /\
  (validate_proxies self = true -> proxies self <> [] ->
   sent L = (probe_request <$> proxies self) ++ dispatched L0 L /\
   proxies (tester L) = valid_subset net (proxies self)) /\
  (validate_proxies self = false \/ proxies self = [] ->
   sent L = dispatched L0 L /\ proxies (tester L) = proxies self).
Proof.
  intros H0 He.
  destruct (dispatch_inv _ _ _ _ _ H0 He) as ((_ & _ & _ & _ & _ & _ & Hpx & _) & _ & reqs & Hs & _).
  rewrite (dispatched_eq _ _ _ Hs), Hs, Hpx.
  destruct (run_start_tester _ _ _ H0) as [Ht Hsent]. cbv zeta in Ht, Hsent.
  rewrite Ht, Hsent. split; [done |]. split.
  - intros -> Hne. destruct (Py.truthy (Py.List (Py.Str <$> proxies self))) eqn:Htr; [done |].
    by apply proxies_truthy in Htr.
  - intros [-> | Hnil]; [done |].
    rewrite (proj2 (proxies_truthy _) Hnil), andb_false_r. done.
Qed.

Lemma validation_precedes_dispatch_witness :
  let self := __init__ "http://127.0.0.1:8080/" 1 1 5 "GET" ""
                       ["http://10.0.0.1:3128"; "http://10.0.0.2:3128"]%string true in
  let net := fun (i : nat) (_ : request) =>
               match i with O => Raise TimeoutError | _ => Response 200 end in
  let schedule := [Enter 0 0 5 10] in
  exists L0 L,
    run_start self net = Some L0 /\ exec schedule L0 = Some L /\
    validate_proxies self = true /\ proxies self <> [] /\
    proxies (tester L) = ["http://10.0.0.2:3128"%string] /\
    (req_proxy <$> sent L) =
      [Some "http://10.0.0.1:3128"; Some "http://10.0.0.2:3128"; Some "http://10.0.0.2:3128"]%string.
Proof.
  intros self net schedule.
  destruct (run_start self net) as [L0|] eqn:H0; [| by vm_compute in H0].
  destruct (exec schedule L0) as [L|] eqn:He;
    [| vm_compute in H0; simplify_eq; by vm_compute in He].
  exists L0, L. split; [done |]. split; [done |]. split; [done |]. split; [done |].
  destruct (proj1 (proj2 (validation_precedes_dispatch self net L0 schedule L H0 He))
              eq_refl ltac:(done)) as [_ Hp].
  split; [rewrite Hp; by vm_compute |].
  vm_compute in H0; simplify_eq; vm_compute in He; by simplify_eq.
Defined.
